(** * SessionScribe: session tracking of [session_scribe.py]

    A shallow embedding of the event handlers ([on_ready], [on_member_join],
    [on_message], [on_member_remove]) and of the two moderator commands
    ([stats], [active]), followed by the properties of the session-tracking
    model.

    The handlers are asynchronous Python functions that mutate one global
    dictionary ([message_counters]) and talk to one table ([sessions]) of a
    hosted store.  They are embedded in a small monad that threads the
    program state, collects the texts sent with [ctx.send] and propagates
    Python exceptions.  Calls to [print] and [bot.change_presence] have no
    effect on the state and are left out; the clock [utcnow().isoformat()]
    is an argument of the handler that reads it. *)

From Stdlib Require Import ZArith Ascii String DecimalString DecimalZ.
From stdpp Require Import gmap strings list fin_maps sorting.

(** ** Python primitives *)

Module Py.

(** [str(n)] on an [int]: the decimal numeral, with a leading minus sign
    for negative numbers. *)
Definition str (z : Z) : string := NilZero.string_of_int (Z.to_int z).

(** The characters that [int] strips from both ends of a text: the ASCII
    white space of [str.isspace] (tab to carriage return, the four
    separators 28 to 31 and the blank). *)
Definition is_space (a : ascii) : bool :=
  let n := nat_of_ascii a in
  (Nat.leb 9 n && Nat.leb n 13) || (Nat.leb 28 n && Nat.leb n 32).

Definition is_digit (a : ascii) : bool :=
  let n := nat_of_ascii a in Nat.leb 48 n && Nat.leb n 57.

Fixpoint lstrip (l : list ascii) : list ascii :=
  match l with
  | a :: rest => if is_space a then lstrip rest else l
  | [] => []
  end.

Definition strip (l : list ascii) : list ascii :=
  List.rev (lstrip (List.rev (lstrip l))).

(** The digits of a numeral: at least one digit, and single underscores
    between digits only. *)
Fixpoint digits_ok (after_digit : bool) (l : list ascii) : bool :=
  match l with
  | [] => after_digit
  | a :: rest =>
      if is_digit a then digits_ok true rest
      else if Ascii.eqb a "_" then after_digit && digits_ok false rest
      else false
  end.

(** [int(s)] on a string, base ten: [None] stands for [ValueError].  White
    space around the numeral is dropped, one sign may come first, and the
    digits may be grouped by single underscores.  Texts are sequences of
    bytes here, so the digits and blanks outside ASCII that Python also
    takes are not recognised. *)
Definition int (s : string) : option Z :=
  let l := strip (list_ascii_of_string s) in
  let '(negative, body) :=
    match l with
    | a :: rest =>
        if Ascii.eqb a "-" then (true, rest)
        else if Ascii.eqb a "+" then (false, rest)
        else (false, l)
    | [] => (false, l)
    end in
  if digits_ok false body then
    (λ d, if negative then (- Z.of_uint d)%Z else Z.of_uint d) <$>
      NilZero.uint_of_string
        (string_of_list_ascii (List.filter (λ a, negb (Ascii.eqb a "_")) body))
  else None.

(** [sep.join(parts)] *)
Fixpoint join (sep : string) (parts : list string) : string :=
  match parts with
  | [] => EmptyString
  | [p] => p
  | p :: rest => p +:+ sep +:+ join sep rest
  end.

(** [x or d] on an optional string: [None] and the empty string are falsy. *)
Definition or_else (x : option string) (d : string) : string :=
  match x with
  | Some (String a s) => String a s
  | _ => d
  end.

Inductive exn := AttributeError | ValueError | MissingPermissions.

End Py.

(** ** The session table *)

Module Store.

(** One row of the table [sessions].  The store-assigned [id] column is the
    position of the row in the table: rows are appended and never
    deleted.  [join_time] and [leave_time] are ISO-8601 texts;
    [channel_counts] is a JSON object from channel id texts to counts, or
    null. *)
Record Row := {
  guild_id : Z;
  user_id : Z;
  join_time : string;
  leave_time : option string;
  channel_counts : option (gmap string Z)
}.

#[global] Instance Row_eq_dec : EqDecision Row.
Proof. solve_decision. Defined.

(** The filters of the request builder: [.eq("guild_id", g)],
    [.eq("user_id", u)] and [.is_("leave_time", None)]. *)
Inductive Filter := EqGuild (g : Z) | EqUser (u : Z) | IsNullLeave.

Definition holds (f : Filter) (r : Row) : Prop :=
  match f with
  | EqGuild g => guild_id r = g
  | EqUser u => user_id r = u
  | IsNullLeave => leave_time r = None
  end.

#[global] Instance holds_dec f r : Decision (holds f r).
Proof. destruct f; simpl; apply _. Defined.

Definition indexed (t : list Row) : list (nat * Row) := imap (λ i r, (i, r)) t.

(** Modelled from the spec: the hosted store is an external collaborator
    whose client is not part of the repository; [select], [order_desc],
    [limit], [insert] and [update_first] follow the store contract of the
    specification (filtered, sorted and limited select; insert of one row;
    patch applied to at most the first row that matches, in the order
    asked for).  [select] keeps the rows that pass every filter, each with
    its position. *)
Definition select (fs : list Filter) (t : list Row) : list (nat * Row) :=
  filter (λ ir, Forall (λ f, holds f ir.2) fs) (indexed t).

(** Modelled from the spec: [.order("join_time", desc=True)] sorts the
    selected rows by [join_time], latest first; the ISO-8601 texts are
    compared as texts, and the contract leaves the order of rows with equal
    [join_time] open. *)
Definition later_first (a b : nat * Row) : Prop :=
  String.leb (join_time b.2) (join_time a.2).

Definition order_desc (rs : list (nat * Row)) : list (nat * Row) :=
  merge_sort later_first rs.

(** Modelled from the spec: [.limit(n)] keeps the first [n] rows. *)
Definition limit (n : nat) (rs : list (nat * Row)) : list (nat * Row) := take n rs.

(** Modelled from the spec: [.insert({"guild_id": g, "user_id": u,
    "join_time": t})] creates one row; the other columns are null. *)
Definition insert (g u : Z) (t0 : string) (t : list Row) : list Row :=
  t ++ [ {| guild_id := g; user_id := u; join_time := t0;
            leave_time := None; channel_counts := None |} ].

(** The patch [{"leave_time": lt, "channel_counts": cc}]. *)
Definition close (lt : string) (cc : gmap string Z) (r : Row) : Row :=
  {| guild_id := guild_id r; user_id := user_id r; join_time := join_time r;
     leave_time := Some lt; channel_counts := Some cc |}.

(** Modelled from the spec:
    [.update(patch).eq(..).eq(..).is_(..).order("join_time", desc=True).limit(1)]
    applies the patch to the first row that matches, in the order asked
    for, and to no row when none matches. *)
Definition update_first (patch : Row → Row) (fs : list Filter) (t : list Row)
  : list Row :=
  match limit 1 (order_desc (select fs t)) with
  | (i, r) :: _ => <[i := patch r]> t
  | [] => t
  end.

(** Number of open sessions of a (guild, user) pair. *)
Definition is_open (g u : Z) (r : Row) : Prop :=
  guild_id r = g ∧ user_id r = u ∧ leave_time r = None.

#[global] Instance is_open_dec g u r : Decision (is_open g u r).
Proof. unfold is_open. apply _. Defined.

Definition open_count (g u : Z) (t : list Row) : nat :=
  length (filter (is_open g u) t).

End Store.

Import Store.

(** ** Platform objects *)

(** A guild member (or message author): the attributes the program reads.
    [m_guild] is [member.guild.id], [m_mention] is [member.mention] and
    [m_manage_guild] is the permission tested by
    [has_permissions(manage_guild=True)]. *)
Record Member := {
  m_guild : Z;
  m_id : Z;
  m_bot : bool;
  m_mention : string;
  m_manage_guild : bool
}.

(** A guild: its id, its channels (id to name, read by [get_channel]) and its
    members (listed by [fetch_members], searched by [get_member]). *)
Record Guild := {
  g_id : Z;
  g_channels : gmap Z string;
  g_members : list Member
}.

Definition get_channel (g : Guild) (cid : Z) : option string := g_channels g !! cid.

Definition get_member (g : Guild) (uid : Z) : option Member :=
  List.find (λ m, bool_decide (m_id m = uid)) (g_members g).

(** What the command layer makes of a message text: [!stats [member]],
    [!active], or no command at all. *)
Inductive Invocation := InvokeStats (member : option Member) | InvokeActive.

(** A message: [message.author], [message.guild] ([None] for a direct
    message), [message.channel.id] and the command it invokes, if any. *)
Record Message := {
  author : Member;
  guild : option Guild;
  channel : Z;
  invocation : option Invocation
}.

(** The invocation context of a command: [ctx.guild] and [ctx.author]. *)
Record Context := {
  ctx_guild : Guild;
  ctx_author : Member
}.

(** ** Program state and the handler monad *)

(** [sessions] is the table of the store; [message_counters] is the global
    [defaultdict] of the program: guild id to user id to channel id to
    count. *)
Record State := {
  sessions : list Row;
  message_counters : gmap Z (gmap Z (gmap Z Z))
}.

(** The state of a freshly started program on an empty table. *)
Definition init : State := {| sessions := []; message_counters := ∅ |}.

(** A handler either returns or raises; either way it leaves a state behind
    and the texts it has sent so far. *)
Inductive Res (A : Type) :=
| Ret (a : A) (st : State) (sent : list string)
| Exn (e : Py.exn) (st : State) (sent : list string).
Arguments Ret {A} a st sent.
Arguments Exn {A} e st sent.

Definition M (A : Type) : Type := State → Res A.

Definition ret {A} (a : A) : M A := λ st, Ret a st [].

Definition bind {A B} (m : M A) (k : A → M B) : M B := λ st,
  match m st with
  | Ret a st1 out1 =>
      match k a st1 with
      | Ret b st2 out2 => Ret b st2 (out1 ++ out2)
      | Exn e st2 out2 => Exn e st2 (out1 ++ out2)
      end
  | Exn e st1 out1 => Exn e st1 out1
  end.

Notation "'let!' x ':=' m 'in' k" := (bind m (λ x, k))
  (at level 10, x binder, m at level 100, k at level 200).
Notation "m ';!' k" := (bind m (λ _, k))
  (at level 100, k at level 200, right associativity).

Definition raise {A} (e : Py.exn) : M A := λ st, Exn e st [].

(** The framework catches what a command raises and logs it. *)
Definition catch (m : M unit) : M unit := λ st,
  match m st with
  | Ret a st1 out => Ret a st1 out
  | Exn _ st1 out => Ret tt st1 out
  end.

(** [ctx.send(text)] *)
Definition send (text : string) : M unit := λ st, Ret tt st [text].

Definition get_sessions : M (list Row) := λ st, Ret (sessions st) st [].

Definition put_sessions (t : list Row) : M unit := λ st,
  Ret tt {| sessions := t; message_counters := message_counters st |} [].

Definition get_counters : M (gmap Z (gmap Z (gmap Z Z))) := λ st,
  Ret (message_counters st) st [].

Definition put_counters (mc : gmap Z (gmap Z (gmap Z Z))) : M unit := λ st,
  Ret tt {| sessions := sessions st; message_counters := mc |} [].

(** [for x in xs: body(x)] *)
Fixpoint for_each {A} (xs : list A) (body : A → M unit) : M unit :=
  match xs with
  | [] => ret tt
  | x :: rest => body x ;! for_each rest body
  end.

Definition res_state {A} (r : Res A) : State :=
  match r with Ret _ st _ | Exn _ st _ => st end.

Definition res_sent {A} (r : Res A) : list string :=
  match r with Ret _ _ out | Exn _ _ out => out end.

Definition raised {A} (r : Res A) : option Py.exn :=
  match r with Ret _ _ _ => None | Exn e _ _ => Some e end.

(** *** Store requests *)

(** [await supabase.table("sessions").select(..)...execute()], then
    [res.data or []]. *)
Definition db_select (fs : list Filter) (post : list (nat * Row) → list (nat * Row))
  : M (list Row) :=
  let! t := get_sessions in ret ((post (select fs t)).*2).

Definition db_insert (g u : Z) (t0 : string) : M unit :=
  let! t := get_sessions in put_sessions (insert g u t0 t).

Definition db_update_first (patch : Row → Row) (fs : list Filter) : M unit :=
  let! t := get_sessions in put_sessions (update_first patch fs t).

(** *** The nested [defaultdict] *)

(** [message_counters[g]]: reading a missing guild creates its (empty)
    bucket. *)
Definition counters_guild (g : Z) : M (gmap Z (gmap Z Z)) :=
  let! mc := get_counters in
  match mc !! g with
  | Some bucket => ret bucket
  | None => put_counters (<[g := ∅]> mc) ;! ret ∅
  end.

Definition set_guild (g : Z) (bucket : gmap Z (gmap Z Z)) : M unit :=
  let! mc := get_counters in put_counters (<[g := bucket]> mc).

(** [message_counters[g][u].clear()]: both levels are created when missing,
    and the tally of [u] is emptied. *)
Definition counters_clear (g u : Z) : M unit :=
  let! bucket := counters_guild g in
  set_guild g (<[u := ∅]> bucket).

(** [message_counters[g][u][c] += 1] for a user that has a tally: a missing
    channel counts from [int()], that is 0. *)
Definition counters_incr (g u c : Z) : M unit :=
  let! bucket := counters_guild g in
  let tally := default ∅ (bucket !! u) in
  set_guild g (<[u := <[c := (default 0 (tally !! c) + 1)%Z]> tally]> bucket).

(** [message_counters[g].pop(u, {})] *)
Definition counters_pop (g u : Z) : M (gmap Z Z) :=
  let! bucket := counters_guild g in
  match bucket !! u with
  | Some tally => set_guild g (delete u bucket) ;! ret tally
  | None => ret ∅
  end.

(** ** Event handlers *)

Definition open_session_of (g u : Z) : list Filter := [EqGuild g; EqUser u; IsNullLeave].

(** [on_ready]: the bootstrap of the members present at start.  [now] is
    read once, before the loops; bots are skipped. *)
Definition on_ready (now : string) (guilds : list Guild) : M unit :=
  for_each guilds (λ guild,
    for_each (g_members guild) (λ member,
      if m_bot member then ret tt
      else
        counters_clear (g_id guild) (m_id member) ;!
        let! data := db_select (open_session_of (g_id guild) (m_id member)) id in
        match data with
        | [] => db_insert (g_id guild) (m_id member) now
        | _ :: _ => ret tt
        end)).

(** [on_member_join]: reset the tally and insert an open session, without
    looking for one that is already open. *)
Definition on_member_join (member : Member) (join_time : string) : M unit :=
  counters_clear (m_guild member) (m_id member) ;!
  db_insert (m_guild member) (m_id member) join_time.

(** [on_member_remove]: pop the tally, turn its keys into texts and close
    the latest open session.  The dictionary comprehension
    [{str(cid): cnt for cid, cnt in counts.items()}] is [kmap Py.str]. *)
Definition on_member_remove (member : Member) (leave_time : string) : M unit :=
  let g := m_guild member in
  let u := m_id member in
  let! counts := counters_pop g u in
  let channel_counts : gmap string Z := kmap Py.str counts in
  db_update_first (close leave_time channel_counts) (open_session_of g u).

(** ** Moderator commands *)

Definition nl : string := String "010"%char EmptyString.

(** One line of the report per channel of [counts.items()]; [int(cid)] may
    raise. *)
Definition count_line (g : Guild) (item : string * Z) : M string :=
  let '(cid, cnt) := item in
  match Py.int cid with
  | None => raise Py.ValueError
  | Some n =>
      let name := match get_channel g n with
                  | Some chan_name => "#" +:+ chan_name
                  | None => cid
                  end in
      ret ("• " +:+ name +:+ ": " +:+ Py.str cnt)
  end.

Fixpoint map_m {A B} (f : A → M B) (xs : list A) : M (list B) :=
  match xs with
  | [] => ret []
  | x :: rest => let! y := f x in let! ys := map_m f rest in ret (y :: ys)
  end.

(** [stats]: report the latest session of [member], or of the invoking
    author when no member is named. *)
Definition stats (ctx : Context) (member : option Member) : M unit :=
  let member := default (ctx_author ctx) member in
  let! data := db_select [EqGuild (g_id (ctx_guild ctx)); EqUser (m_id member)]
                 (λ rs, limit 1 (order_desc rs)) in
  match data with
  | [] => send ("No sessions found for " +:+ m_mention member +:+ ".")
  | ses :: _ =>
      let jc := join_time ses in
      let lt := Py.or_else (leave_time ses) "still here" in
      let lines := [ "**Session for " +:+ m_mention member +:+ ":**";
                     "• Joined: `" +:+ jc +:+ "`";
                     "• Left:   `" +:+ lt +:+ "`";
                     "";
                     "**Message counts:**" ] in
      match map_to_list <$> channel_counts ses with
      | Some (item :: items) =>
          let! more := map_m (count_line (ctx_guild ctx)) (item :: items) in
          send (Py.join nl (lines ++ more))
      | _ => send (Py.join nl (lines ++ ["• No messages recorded."]))
      end
  end.

(** [m.mention if m else f"`{uid}`"] for [m = ctx.guild.get_member(int(uid))];
    [uid] is an integer already. *)
Definition mention_or_id (g : Guild) (uid : Z) : string :=
  match get_member g uid with
  | Some m => m_mention m
  | None => "`" +:+ Py.str uid +:+ "`"
  end.

(** [active]: the users with an open session in the guild, each once. *)
Definition active (ctx : Context) : M unit :=
  let! data := db_select [EqGuild (g_id (ctx_guild ctx)); IsNullLeave] id in
  let users : gset Z := list_to_set (user_id <$> data) in
  match elements users with
  | [] => send "No active sessions right now."
  | uids =>
      let mentions := mention_or_id (ctx_guild ctx) <$> uids in
      send ("**Active sessions:** " +:+ Py.join ", " mentions)
  end.

(** A command behind [@commands.has_permissions(manage_guild=True)]. *)
Definition invoke (ctx : Context) (inv : Invocation) : M unit :=
  if m_manage_guild (ctx_author ctx) then
    match inv with
    | InvokeStats member => stats ctx member
    | InvokeActive => active ctx
    end
  else raise Py.MissingPermissions.

(** [bot.process_commands(message)]: run the command of the message, if
    any; what the command raises is reported by the framework and does not
    reach the caller. *)
Definition process_commands (message : Message) (g : Guild) : M unit :=
  match invocation message with
  | None => ret tt
  | Some inv => catch (invoke {| ctx_guild := g; ctx_author := author message |} inv)
  end.

(** [on_message]: bots are ignored; [message.guild.id] is read next, and
    [message.guild] is [None] for a direct message. *)
Definition on_message (message : Message) : M unit :=
  if m_bot (author message) then ret tt
  else
    match guild message with
    | None => raise Py.AttributeError
    | Some gd =>
        let g := g_id gd in
        let u := m_id (author message) in
        let c := channel message in
        let! bucket := counters_guild g in
        (if decide (is_Some (bucket !! u)) then counters_incr g u c else ret tt) ;!
        process_commands message gd
    end.

(** ** The event loop *)

Inductive Event :=
| Ready (now : string) (guilds : list Guild)
| MemberJoin (member : Member) (now : string)
| MessageCreate (message : Message)
| MemberRemove (member : Member) (now : string).

Definition handle (ev : Event) : M unit :=
  match ev with
  | Ready now guilds => on_ready now guilds
  | MemberJoin member now => on_member_join member now
  | MessageCreate message => on_message message
  | MemberRemove member now => on_member_remove member now
  end.

(** The framework logs what a handler raises and goes on with the next
    event, from the state the handler left. *)
Definition dispatch (st : State) (ev : Event) : State := res_state (handle ev st).

Definition run (evs : list Event) (st : State) : State := foldl dispatch st evs.

(** ** Observations used in the statements *)

(** A computation that leaves the state as it found it, whether it returns
    or raises. *)
Definition readonly {A} (m : M A) : Prop := ∀ st, res_state (m st) = st.

(** The tally of a user in a guild, if the counter has one. *)
Definition entry (g u : Z) (mc : gmap Z (gmap Z (gmap Z Z))) : option (gmap Z Z) :=
  mc !! g ≫= (.!! u).

(** What reading [message_counters[g]] leaves in the counter. *)
Definition touched (g : Z) (mc : gmap Z (gmap Z (gmap Z Z))) : gmap Z (gmap Z (gmap Z Z)) :=
  match mc !! g with
  | Some _ => mc
  | None => <[g := ∅]> mc
  end.

(** One more message in channel [c] on a tally. *)
Definition bump (c : Z) (tally : gmap Z Z) : gmap Z Z :=
  <[c := (default 0 (tally !! c) + 1)%Z]> tally.

(** A message of the non-bot user [u] in guild [g]. *)
Definition sent_by (g u : Z) (m : Message) : Prop :=
  m_bot (author m) = false ∧ m_id (author m) = u ∧ g_id <$> guild m = Some g.

(** How many of the messages were sent in channel [c]. *)
Definition messages_in (c : Z) (msgs : list Message) : nat :=
  length (filter (λ m, channel m = c) msgs).

(** The closed session row of a pair. *)
Definition closed_row (g u : Z) (t0 t1 : string) (cc : gmap string Z) : Row :=
  {| guild_id := g; user_id := u; join_time := t0;
     leave_time := Some t1; channel_counts := Some cc |}.

(** The events of one session of [member]: the join at [t0], the messages,
    the leave at [t1]. *)
Definition session_events (member : Member) (t0 t1 : string) (msgs : list Message)
  : list Event :=
  MemberJoin member t0 :: (MessageCreate <$> msgs) ++ [MemberRemove member t1].

(** ** The session protocol *)

(** The (guild, user) pairs that a bootstrap goes through: the non-bot
    members of every guild, in order. *)
Definition present_pairs (guilds : list Guild) : list (Z * Z) :=
  guilds ≫= λ guild,
    (λ member, (g_id guild, m_id member)) <$>
      filter (λ member, m_bot member = false) (g_members guild).

(** What the bootstrap does to the table for one pair: insert an open
    session unless the pair has one. *)
Definition attach (now : string) (t : list Row) (p : Z * Z) : list Row :=
  match select (open_session_of p.1 p.2) t with
  | [] => insert p.1 p.2 now t
  | _ :: _ => t
  end.

(** The state after the bootstrap step of one member. *)
Definition ready_member (now : string) (g : Z) (member : Member) (st : State) : State :=
  if m_bot member then st
  else
    {| sessions := attach now (sessions st) (g, m_id member);
       message_counters :=
         <[g := <[m_id member := ∅]> (default ∅ (message_counters st !! g))]>
           (message_counters st) |}.

(** An event sequence follows the session protocol when a join of a pair
    arrives only while the pair has no session in progress: [present] holds
    the pairs whose session was started (by a bootstrap or by a join) and not
    yet ended by a leave.  Bootstraps, messages and leaves may come at any
    time. *)
Fixpoint follows_protocol (present : gset (Z * Z)) (evs : list Event) : bool :=
  match evs with
  | [] => true
  | Ready _ guilds :: rest =>
      follows_protocol (list_to_set (present_pairs guilds) ∪ present) rest
  | MemberJoin member _ :: rest =>
      bool_decide ((m_guild member, m_id member) ∉ present) &&
      follows_protocol ({[ (m_guild member, m_id member) ]} ∪ present) rest
  | MessageCreate _ :: rest => follows_protocol present rest
  | MemberRemove member _ :: rest =>
      follows_protocol (present ∖ {[ (m_guild member, m_id member) ]}) rest
  end.

(** The table has at most one open session per pair, and none for a pair
    that is not in [present]. *)
Definition one_open_session (present : gset (Z * Z)) (t : list Row) : Prop :=
  ∀ g u, open_count g u t ≤ 1 ∧ ((g, u) ∉ present → open_count g u t = 0).

(** ** Sample objects *)

Definition alice : Member :=
  {| m_guild := 1; m_id := 2; m_bot := false; m_mention := "<@2>";
     m_manage_guild := true |}.

Definition lobby : Guild :=
  {| g_id := 1; g_channels := {[ 1001%Z := "general" ]}; g_members := [alice] |}.

Definition says (c : Z) : Message :=
  {| author := alice; guild := Some lobby; channel := c; invocation := None |}.

Definition whispers : Message :=
  {| author := alice; guild := None; channel := 7; invocation := None |}.

Definition moderator_ctx : Context := {| ctx_guild := lobby; ctx_author := alice |}.

Definition robot : Member :=
  {| m_guild := 1; m_id := 9; m_bot := true; m_mention := "<@9>";
     m_manage_guild := false |}.

Definition beeps : Message :=
  {| author := robot; guild := Some lobby; channel := 1001; invocation := None |}.

(** ** Further observations and sample states *)

(** A member without the manage-guild permission, who is not a bot, and a
    message of that member in guild 1 that invokes [active]; the same
    message from a moderator. *)
Definition guest : Member :=
  {| m_guild := 1; m_id := 3; m_bot := false; m_mention := "<@3>";
     m_manage_guild := false |}.

Definition guest_asks_active : Message :=
  {| author := guest; guild := Some lobby; channel := 1001;
     invocation := Some InvokeActive |}.

Definition moderator_asks_active : Message :=
  {| author := alice; guild := Some lobby; channel := 1001;
     invocation := Some InvokeActive |}.

(** The state after a bootstrap that finds user 2 in guild 1 and a join of
    the same user: two open sessions of the pair. *)
Definition two_open : State := run [Ready "T0" [lobby]; MemberJoin alice "T1"] init.

(** What [message_counters[g][u].clear()] leaves in the counter, for the pair
    [p = (g, u)]. *)
Definition reset (mc : gmap Z (gmap Z (gmap Z Z))) (p : Z * Z)
  : gmap Z (gmap Z (gmap Z Z)) :=
  <[p.1 := <[p.2 := ∅]> (default ∅ (mc !! p.1))]> mc.

(** Every key of every [channel_counts] in the table is the text of an
    integer, as [on_member_remove] writes them. *)
Definition numeric_keys (t : list Row) : Prop :=
  ∀ r cc k, r ∈ t → channel_counts r = Some cc → is_Some (cc !! k) →
            ∃ z, k = Py.str z.

(** * Properties *)

(** ** The store requests *)

Lemma elem_of_indexed (t : list Row) (i : nat) (r : Row) :
  (i, r) ∈ indexed t ↔ t !! i = Some r.
Proof.
  unfold indexed. rewrite list_elem_of_lookup. split.
  - intros [j Hj]. rewrite list_lookup_imap in Hj.
    destruct (t !! j) as [r'|] eqn:E; simpl in Hj; [|done].
    by inversion Hj; subst.
  - intros H. exists i. rewrite list_lookup_imap, H. done.
Qed.

Lemma elem_of_select (fs : list Filter) (t : list Row) (i : nat) (r : Row) :
  (i, r) ∈ select fs t ↔ t !! i = Some r ∧ Forall (λ f, holds f r) fs.
Proof.
  unfold select. rewrite list_elem_of_filter, elem_of_indexed. simpl. tauto.
Qed.

Lemma select_none (fs : list Filter) (t : list Row) :
  (∀ r, r ∈ t → ¬ Forall (λ f, holds f r) fs) → select fs t = [].
Proof.
  intros H. destruct (select fs t) as [|[i r] rest] eqn:E; [done|].
  assert (Hin : (i, r) ∈ select fs t) by (rewrite E; left).
  apply elem_of_select in Hin as [Hl Hf].
  destruct (H r); [by eapply list_elem_of_lookup_2|done].
Qed.

Lemma holds_open_session_of (g u : Z) (r : Row) :
  Forall (λ f, holds f r) (open_session_of g u) ↔ is_open g u r.
Proof.
  unfold open_session_of, is_open. rewrite !Forall_cons, Forall_nil. simpl. tauto.
Qed.

Lemma open_count_0 (g u : Z) (t : list Row) :
  open_count g u t = 0 ↔ ∀ r, r ∈ t → ¬ is_open g u r.
Proof.
  unfold open_count. rewrite length_zero_iff_nil. split.
  - intros H r Hr Ho.
    assert (r ∈ filter (is_open g u) t) by (by apply list_elem_of_filter).
    rewrite H in *. by eapply not_elem_of_nil.
  - intros H. destruct (filter (is_open g u) t) as [|r rest] eqn:E; [done|].
    assert (Hin : r ∈ filter (is_open g u) t) by (rewrite E; left).
    apply list_elem_of_filter in Hin as [Ho Hr]. by destruct (H r).
Qed.

Lemma select_open_none (g u : Z) (t : list Row) :
  open_count g u t = 0 → select (open_session_of g u) t = [].
Proof.
  intros H. apply select_none. intros r Hr Hf.
  apply holds_open_session_of in Hf. by eapply open_count_0.
Qed.

Lemma order_desc_nil : order_desc [] = [].
Proof. reflexivity. Qed.

Lemma order_desc_singleton (x : nat * Row) : order_desc [x] = [x].
Proof. reflexivity. Qed.

Lemma update_first_none (patch : Row → Row) (fs : list Filter) (t : list Row) :
  select fs t = [] → update_first patch fs t = t.
Proof. intros H. unfold update_first. by rewrite H. Qed.

(** ** Read-only computations *)

Lemma readonly_ret {A} (a : A) : readonly (ret a).
Proof. done. Qed.

Lemma readonly_raise {A} (e : Py.exn) : readonly (@raise A e).
Proof. done. Qed.

Lemma readonly_send (text : string) : readonly (send text).
Proof. done. Qed.

Lemma readonly_bind {A B} (m : M A) (k : A → M B) :
  readonly m → (∀ a, readonly (k a)) → readonly (bind m k).
Proof.
  intros Hm Hk st. unfold bind. specialize (Hm st).
  destruct (m st) as [a st1 out1|e st1 out1]; simpl in Hm; subst; [|done].
  specialize (Hk a st). by destruct (k a st).
Qed.

Lemma readonly_catch (m : M unit) : readonly m → readonly (catch m).
Proof. intros Hm st. unfold catch. specialize (Hm st). by destruct (m st). Qed.

Lemma readonly_db_select fs post : readonly (db_select fs post).
Proof. done. Qed.

Lemma readonly_map_m {A B} (f : A → M B) (xs : list A) :
  (∀ x, readonly (f x)) → readonly (map_m f xs).
Proof.
  intros Hf. induction xs as [|x rest IH]; simpl; [done|].
  apply readonly_bind; [done|]. intros y.
  apply readonly_bind; [done|]. intros ys. done.
Qed.

Lemma readonly_count_line (g : Guild) (item : string * Z) : readonly (count_line g item).
Proof. destruct item as [cid cnt]. unfold count_line. by destruct (Py.int cid). Qed.

Lemma readonly_stats (ctx : Context) (member : option Member) : readonly (stats ctx member).
Proof.
  unfold stats. apply readonly_bind; [apply readonly_db_select|].
  intros [|ses rest]; [apply readonly_send|].
  destruct (map_to_list <$> channel_counts ses) as [[|item items]|];
    try apply readonly_send.
  apply readonly_bind; [|intros; apply readonly_send].
  apply readonly_map_m, readonly_count_line.
Qed.

Lemma readonly_active (ctx : Context) : readonly (active ctx).
Proof.
  unfold active. apply readonly_bind; [apply readonly_db_select|].
  intros data. destruct (elements _); apply readonly_send.
Qed.

Lemma readonly_invoke (ctx : Context) (inv : Invocation) : readonly (invoke ctx inv).
Proof.
  unfold invoke. destruct (m_manage_guild _); [|apply readonly_raise].
  destruct inv; [apply readonly_stats|apply readonly_active].
Qed.

Lemma readonly_process_commands (message : Message) (g : Guild) :
  readonly (process_commands message g).
Proof.
  unfold process_commands. destruct (invocation message); [|apply readonly_ret].
  apply readonly_catch, readonly_invoke.
Qed.

Lemma process_commands_returns (message : Message) (g : Guild) (st : State) :
  ∃ out, process_commands message g st = Ret tt st out.
Proof.
  pose proof (readonly_process_commands message g st) as H.
  unfold process_commands in *. destruct (invocation message); [|by eexists].
  unfold catch in *. destruct (invoke _ _ st) as [[] st1 out|e st1 out];
    simpl in H; subst; by eexists.
Qed.

(** ** The nested counter *)

Lemma state_eta (st : State) :
  {| sessions := sessions st; message_counters := message_counters st |} = st.
Proof. by destruct st. Qed.

Lemma counters_guild_eq (g : Z) (st : State) :
  counters_guild g st =
    Ret (default ∅ (message_counters st !! g))
        {| sessions := sessions st; message_counters := touched g (message_counters st) |}
        [].
Proof.
  unfold counters_guild, touched, bind, get_counters.
  destruct (message_counters st !! g) as [bucket|]; simpl; [|done].
  by rewrite state_eta.
Qed.

Lemma entry_touched (g g' u' : Z) mc : entry g' u' (touched g mc) = entry g' u' mc.
Proof.
  unfold entry, touched. destruct (mc !! g) as [b|] eqn:E; [done|].
  destruct (decide (g = g')) as [->|Hne].
  - by rewrite lookup_insert_eq, E.
  - by rewrite lookup_insert_ne.
Qed.

Lemma touched_present (g : Z) mc : is_Some (mc !! g) → touched g mc = mc.
Proof. intros [b Hb]. unfold touched. by rewrite Hb. Qed.

Lemma insert_touched (g : Z) b mc : <[g := b]> (touched g mc) = <[g := b]> mc.
Proof.
  unfold touched. destruct (mc !! g); [done|]. by rewrite insert_insert_eq.
Qed.

Lemma counters_clear_eq (g u : Z) (st : State) :
  counters_clear g u st =
    Ret tt {| sessions := sessions st;
              message_counters :=
                <[g := <[u := ∅]> (default ∅ (message_counters st !! g))]>
                  (message_counters st) |} [].
Proof.
  unfold counters_clear, bind. rewrite counters_guild_eq.
  unfold set_guild, bind, get_counters, put_counters. simpl.
  by rewrite insert_touched.
Qed.

Lemma counters_pop_eq (g u : Z) (st : State) :
  counters_pop g u st =
    Ret (default ∅ (entry g u (message_counters st)))
        {| sessions := sessions st;
           message_counters :=
             <[g := delete u (default ∅ (message_counters st !! g))]>
               (message_counters st) |} [].
Proof.
  unfold counters_pop, bind. rewrite counters_guild_eq. unfold entry.
  destruct (message_counters st !! g) as [bucket|] eqn:E; simpl.
  - destruct (bucket !! u) as [tally|] eqn:Eu; simpl.
    + unfold set_guild, bind, get_counters, put_counters. simpl.
      by rewrite insert_touched.
    + rewrite delete_id by done. unfold touched. rewrite E.
      by rewrite insert_id.
  - rewrite lookup_empty. simpl. rewrite delete_empty. unfold touched.
    by rewrite E.
Qed.

Lemma db_update_first_eq patch fs (st : State) :
  db_update_first patch fs st =
    Ret tt {| sessions := update_first patch fs (sessions st);
              message_counters := message_counters st |} [].
Proof. reflexivity. Qed.

Lemma db_insert_eq g u t0 (st : State) :
  db_insert g u t0 st =
    Ret tt {| sessions := insert g u t0 (sessions st);
              message_counters := message_counters st |} [].
Proof. reflexivity. Qed.

Lemma on_member_join_eq (member : Member) (now : string) (st : State) :
  on_member_join member now st =
    Ret tt {| sessions := insert (m_guild member) (m_id member) now (sessions st);
              message_counters :=
                <[m_guild member :=
                    <[m_id member := ∅]>
                      (default ∅ (message_counters st !! m_guild member))]>
                  (message_counters st) |} [].
Proof. unfold on_member_join, bind. by rewrite counters_clear_eq. Qed.

Lemma on_member_remove_eq (member : Member) (now : string) (st : State) :
  on_member_remove member now st =
    Ret tt {| sessions :=
                update_first
                  (close now (kmap Py.str
                     (default ∅ (entry (m_guild member) (m_id member) (message_counters st)))))
                  (open_session_of (m_guild member) (m_id member)) (sessions st);
              message_counters :=
                <[m_guild member :=
                    delete (m_id member)
                      (default ∅ (message_counters st !! m_guild member))]>
                  (message_counters st) |} [].
Proof. unfold on_member_remove, bind. by rewrite counters_pop_eq. Qed.

(** C6: when the member has no open session row for their (guild, user)
    pair, [on_member_remove] raises nothing and its conditional update
    changes no row: the table is the same before and after. *)
Theorem on_member_remove_no_open_session (member : Member) (now : string) (st : State) :
  open_count (m_guild member) (m_id member) (sessions st) = 0 →
  raised (on_member_remove member now st) = None ∧
  sessions (res_state (on_member_remove member now st)) = sessions st.
Proof.
  intros H. rewrite on_member_remove_eq. simpl. split; [done|].
  by apply update_first_none, select_open_none.
Qed.

Lemma on_member_remove_no_open_session_witness :
  raised (on_member_remove alice "T1" init) = None ∧
  sessions (res_state (on_member_remove alice "T1" init)) = sessions init.
Proof. apply (on_member_remove_no_open_session alice "T1" init). reflexivity. Defined.
(** ** The commands *)

(** C7: for a user without any session row in the guild, [stats] sends the
    one text "No sessions found for <mention>." and nothing else; the user
    is the named member, or the invoking author when none is named. *)
Theorem stats_no_sessions (ctx : Context) (member : option Member) (st : State) :
  let target := default (ctx_author ctx) member in
  (∀ r, r ∈ sessions st →
        ¬ (guild_id r = g_id (ctx_guild ctx) ∧ user_id r = m_id target)) →
  stats ctx member st =
    Ret tt st ["No sessions found for " +:+ m_mention target +:+ "."].
Proof.
  intros target H. unfold stats, bind, db_select, get_sessions. simpl.
  rewrite select_none; [done|].
  intros r Hr Hf. apply (H r Hr).
  rewrite !Forall_cons in Hf. simpl in Hf. tauto.
Qed.

Lemma stats_no_sessions_witness :
  stats moderator_ctx None init = Ret tt init ["No sessions found for <@2>."].
Proof.
  apply (stats_no_sessions moderator_ctx None init).
  simpl. intros r Hr. by apply not_elem_of_nil in Hr.
Defined.

Lemma elem_of_select_users (fs : list Filter) (t : list Row) (u : Z) :
  u ∈ user_id <$> (select fs t).*2 ↔
  ∃ r, r ∈ t ∧ Forall (λ f, holds f r) fs ∧ user_id r = u.
Proof.
  rewrite list_elem_of_fmap. split.
  - intros (r & -> & Hr). apply list_elem_of_fmap in Hr as ([i r'] & -> & Hin).
    apply elem_of_select in Hin as [Hl Hf]. exists r'. simpl.
    split; [by eapply list_elem_of_lookup_2|done].
  - intros (r & Hr & Hf & <-). exists r. split; [done|].
    apply list_elem_of_lookup in Hr as [i Hi]. apply list_elem_of_fmap.
    exists (i, r). split; [done|]. by apply elem_of_select.
Qed.

Lemma mention_or_id_cases (g : Guild) (uid : Z) :
  (∃ m, m ∈ g_members g ∧ m_id m = uid ∧ mention_or_id g uid = m_mention m) ∨
  ((∀ m, m ∈ g_members g → m_id m ≠ uid) ∧
   mention_or_id g uid = "`" +:+ Py.str uid +:+ "`").
Proof.
  unfold mention_or_id, get_member.
  destruct (List.find _ (g_members g)) as [m|] eqn:E.
  - left. apply List.find_some in E as [Hin Hid].
    exists m. split; [by apply list_elem_of_In|]. split; [|done].
    by apply bool_decide_eq_true in Hid.
  - right. split; [|done]. intros m Hm Hid.
    apply list_elem_of_In in Hm.
    pose proof (List.find_none _ _ E m Hm) as Hf. simpl in Hf.
    by apply bool_decide_eq_false in Hf.
Qed.

Lemma join_concat (sep : string) (parts : list string) :
  Py.join sep parts = String.concat sep parts.
Proof.
  induction parts as [|p rest IH]; [done|].
  destruct rest as [|q rest]; [done|]. simpl in *. by rewrite IH.
Qed.

(** C8: [active] reports the distinct users that have an open session in
    the guild: the list it formats has no repetition and holds exactly the
    [user_id]s of the rows of the guild with a null [leave_time]; each is
    shown as the mention of a member of the guild with that id when there is
    one, and as the identifier between back quotes when the guild has no
    member with that id; the handles are joined with ", " after the heading,
    and when there is none the only text sent is "No active sessions right
    now.". *)
Theorem active_reports_distinct_open_users (ctx : Context) (st : State) :
  ∃ (uids : list Z) (handles : list string),
    NoDup uids ∧
    (∀ u, u ∈ uids ↔
          ∃ r, r ∈ sessions st ∧ guild_id r = g_id (ctx_guild ctx) ∧
               leave_time r = None ∧ user_id r = u) ∧
    Forall2 (λ u h,
               (∃ m, m ∈ g_members (ctx_guild ctx) ∧ m_id m = u ∧
                     h = m_mention m) ∨
               ((∀ m, m ∈ g_members (ctx_guild ctx) → m_id m ≠ u) ∧
                h = "`" +:+ Py.str u +:+ "`"))
            uids handles ∧
    active ctx st =
      Ret tt st
        [ match handles with
          | [] => "No active sessions right now."
          | _ :: _ => "**Active sessions:** " +:+ String.concat ", " handles
          end ].
Proof.
  unfold active, bind, db_select, get_sessions. simpl.
  set (users := list_to_set _ : gset Z).
  exists (elements users), (mention_or_id (ctx_guild ctx) <$> elements users).
  split; [apply NoDup_elements|]. split; [|split].
  - intros u. rewrite elem_of_elements. unfold users.
    rewrite elem_of_list_to_set, elem_of_select_users.
    apply exist_proper. intros r. rewrite !Forall_cons, Forall_nil. simpl. tauto.
  - apply Forall2_fmap_r, Forall_Forall2_diag, Forall_forall.
    intros u _. unfold compose.
    destruct (mention_or_id_cases (ctx_guild ctx) u)
      as [(m & Hm & Hid & Heq)|[Hno Heq]]; rewrite Heq;
      [left; by exists m|by right].
  - rewrite <- join_concat. by destruct (elements users).
Qed.

(** Two open sessions of one user are listed once. *)
Example active_lists_each_user_once :
  active moderator_ctx
    {| sessions := insert 1 2 "T1" (insert 1 2 "T0" []); message_counters := ∅ |} =
    Ret tt
      {| sessions := insert 1 2 "T1" (insert 1 2 "T0" []); message_counters := ∅ |}
      ["**Active sessions:** <@2>"].
Proof. vm_compute. reflexivity. Qed.

(** A user with an open session who is no longer a member of the guild is
    shown by identifier. *)
Example active_shows_the_id_of_a_former_member :
  res_sent (active moderator_ctx
              {| sessions := insert 1 5 "T0" []; message_counters := ∅ |}) =
    ["**Active sessions:** `5`"].
Proof. vm_compute. reflexivity. Qed.

(** C9: neither command changes the state: after [stats] and after [active],
    run directly or through the permission check, returning or raising, the
    table and the counter are the ones the command started from. *)
Theorem commands_leave_state_unchanged
    (ctx : Context) (member : option Member) (inv : Invocation) (st : State) :
  res_state (stats ctx member st) = st ∧
  res_state (active ctx st) = st ∧
  res_state (invoke ctx inv st) = st.
Proof.
  split; [apply readonly_stats|]. split; [apply readonly_active|].
  apply readonly_invoke.
Qed.

(** ** Messages *)

Lemma on_message_guild (message : Message) (gd : Guild) (st : State) :
  m_bot (author message) = false →
  guild message = Some gd →
  ∃ out,
    on_message message st =
      Ret tt
        {| sessions := sessions st;
           message_counters :=
             match entry (g_id gd) (m_id (author message)) (message_counters st) with
             | Some tally =>
                 <[g_id gd :=
                     <[m_id (author message) :=
                         <[channel message := (default 0 (tally !! channel message) + 1)%Z]> tally]>
                       (default ∅ (message_counters st !! g_id gd))]>
                   (message_counters st)
             | None => touched (g_id gd) (message_counters st)
             end |} out.
Proof.
  intros Hbot Hg. unfold on_message. rewrite Hbot, Hg.
  unfold bind at 1. rewrite counters_guild_eq. unfold entry.
  set (st1 := {| sessions := sessions st; message_counters := _ |}).
  destruct (message_counters st !! g_id gd) as [bucket|] eqn:Eg; simpl.
  - destruct (bucket !! m_id (author message)) as [tally|] eqn:Eu.
    + rewrite decide_True by eauto. unfold bind at 1.
      unfold counters_incr, bind at 1. rewrite counters_guild_eq.
      unfold set_guild, bind, get_counters, put_counters. simpl.
      rewrite !(touched_present (g_id gd) (message_counters st)) by eauto.
      rewrite Eg. simpl. rewrite Eu. simpl.
      match goal with |- context [process_commands message gd ?s] =>
        destruct (process_commands_returns message gd s) as [out ->] end.
      by eexists.
    + rewrite decide_False by (intros [? ?]; congruence). unfold bind.
      simpl.
      destruct (process_commands_returns message gd st1) as [out ->].
      by eexists.
  - rewrite decide_False by (rewrite lookup_empty; intros [? ?]; congruence).
    unfold bind. simpl.
    destruct (process_commands_returns message gd st1) as [out ->].
    by eexists.
Qed.
(** C5, as the code has it: a message of a non-bot author who has no tally
    in the guild raises nothing, leaves the table unchanged and creates no
    tally: every (guild, user) tally is what it was.  When the guild already
    has a bucket in the counter the whole state is unchanged; when it has
    none, reading [message_counters[g]] leaves an empty bucket for the guild
    behind. *)
Theorem on_message_without_entry (message : Message) (gd : Guild) (st : State) :
  m_bot (author message) = false →
  guild message = Some gd →
  entry (g_id gd) (m_id (author message)) (message_counters st) = None →
  let st' := res_state (on_message message st) in
  raised (on_message message st) = None ∧
  sessions st' = sessions st ∧
  (∀ g' u', entry g' u' (message_counters st') = entry g' u' (message_counters st)) ∧
  (is_Some (message_counters st !! g_id gd) → st' = st) ∧
  (message_counters st !! g_id gd = None →
   message_counters st' = <[g_id gd := ∅]> (message_counters st)).
Proof.
  intros Hbot Hg He.
  destruct (on_message_guild message gd st Hbot Hg) as [out ->].
  rewrite He. simpl. repeat split.
  - intros g' u'. apply entry_touched.
  - intros Hs. rewrite touched_present by done. apply state_eta.
  - intros Hn. unfold touched. by rewrite Hn.
Qed.

Lemma on_message_without_entry_witness :
  sessions (res_state (on_message (says 1001) init)) = sessions init.
Proof.
  apply (on_message_without_entry (says 1001) lobby init); reflexivity.
Defined.

(** C5, as stated, fails: on the fresh state a non-bot message in guild 1
    from user 2, who has no tally, changes the counter (guild 1 gets an empty
    bucket). *)
Lemma message_without_tally_creates_guild_bucket :
  m_bot (author (says 1001)) = false ∧
  entry 1 2 (message_counters init) = None ∧
  message_counters (res_state (on_message (says 1001) init)) ≠ message_counters init.
Proof.
  split; [reflexivity|]. split; [reflexivity|].
  intros H. apply (f_equal (λ mc, mc !! 1%Z)) in H. vm_compute in H. discriminate.
Qed.

(** C10: a message of a non-bot author that carries no guild makes
    [on_message] raise [AttributeError] at the read of the guild id, before
    any change of state; a message of a bot returns at once with the state
    untouched; and a non-bot message is not guaranteed to leave the state
    alone. *)
Theorem on_message_direct_message_raises (message : Message) (st : State) :
  (m_bot (author message) = false → guild message = None →
   on_message message st = Exn Py.AttributeError st []) ∧
  (m_bot (author message) = true → on_message message st = Ret tt st []) ∧
  (∃ m s, m_bot (author m) = false ∧ res_state (on_message m s) ≠ s).
Proof.
  split; [|split].
  - intros Hbot Hg. unfold on_message. by rewrite Hbot, Hg.
  - intros Hbot. unfold on_message. by rewrite Hbot.
  - exists (says 1001), init. split; [reflexivity|].
    intros H. apply (f_equal (λ s, message_counters s !! 1%Z)) in H.
    vm_compute in H. discriminate.
Qed.

Lemma on_message_direct_message_raises_witness :
  on_message whispers init = Exn Py.AttributeError init [] ∧
  on_message beeps init = Ret tt init [].
Proof.
  split.
  - apply (proj1 (on_message_direct_message_raises whispers init)); reflexivity.
  - apply (proj1 (proj2 (on_message_direct_message_raises beeps init))); reflexivity.
Defined.
(** ** Channel keys *)

Lemma digit_not_space a : Py.is_digit a = true → Py.is_space a = false.
Proof.
  unfold Py.is_digit, Py.is_space. cbv zeta. intros H.
  apply andb_prop in H as [H1 H2]. apply Nat.leb_le in H1. apply Nat.leb_le in H2.
  apply orb_false_iff. split; apply andb_false_iff; right; apply Nat.leb_gt; lia.
Qed.

Lemma digit_not_char (a b : ascii) :
  Py.is_digit b = false → Py.is_digit a = true → Ascii.eqb a b = false.
Proof.
  intros Hb Ha. destruct (Ascii.eqb_spec a b) as [->|]; [congruence|done].
Qed.

Lemma digits_of_uint (d : Decimal.uint) :
  Forall (λ a, Py.is_digit a = true) (list_ascii_of_string (NilEmpty.string_of_uint d)).
Proof. induction d; simpl; constructor; done. Qed.

Lemma lstrip_no_space (l : list ascii) :
  match l with a :: _ => Py.is_space a = false | [] => True end → Py.lstrip l = l.
Proof. destruct l as [|a rest]; [done|]. simpl. by intros ->. Qed.

Lemma strip_digits (pre l : list ascii) :
  Forall (λ a, Py.is_space a = false) (pre ++ l) → Py.strip (pre ++ l) = pre ++ l.
Proof.
  intros Hall. unfold Py.strip.
  rewrite (lstrip_no_space (pre ++ l)).
  - rewrite lstrip_no_space; [apply rev_involutive|].
    assert (Hrev : Forall (λ a, Py.is_space a = false) (List.rev (pre ++ l))).
    { apply Forall_forall. intros a Ha. rewrite Forall_forall in Hall.
      apply Hall. apply list_elem_of_In. apply in_rev. by apply list_elem_of_In. }
    destruct (List.rev (pre ++ l)); [done|]. by apply Forall_cons in Hrev as [? _].
  - destruct (pre ++ l); [done|]. by apply Forall_cons in Hall as [? _].
Qed.

Lemma digits_ok_digits (l : list ascii) :
  Forall (λ a, Py.is_digit a = true) l → Py.digits_ok true l = true.
Proof. induction 1 as [|a l Ha _ IH]; [done|]. simpl. by rewrite Ha. Qed.

Lemma filter_digits (l : list ascii) :
  Forall (λ a, Py.is_digit a = true) l →
  List.filter (λ a, negb (Ascii.eqb a "_")) l = l.
Proof.
  induction 1 as [|a l Ha _ IH]; [done|]. simpl.
  rewrite (digit_not_char a "_") by done. simpl. by rewrite IH.
Qed.

Lemma int_digit_list (negative : bool) (ds : list ascii) :
  ds ≠ [] →
  Forall (λ a, Py.is_digit a = true) ds →
  Py.int (string_of_list_ascii ((if negative then ["-"%char] else []) ++ ds)) =
    (λ d, if negative then (- Z.of_uint d)%Z else Z.of_uint d) <$>
      NilZero.uint_of_string (string_of_list_ascii ds).
Proof.
  intros Hne Hdig. unfold Py.int.
  rewrite list_ascii_of_string_of_list_ascii, strip_digits.
  2:{ apply Forall_app. split.
      - destruct negative; [by repeat constructor|constructor].
      - eapply Forall_impl; [exact Hdig|]. intros a. apply digit_not_space. }
  destruct ds as [|a rest]; [done|].
  apply Forall_cons in Hdig as [Ha Hrest].
  assert (Hbody : Py.digits_ok false (a :: rest) = true).
  { simpl. rewrite Ha. by apply digits_ok_digits. }
  assert (Hfilter : List.filter (λ a, negb (Ascii.eqb a "_")) (a :: rest) = a :: rest).
  { apply filter_digits. by constructor. }
  destruct negative.
  - change (["-"%char] ++ a :: rest) with ("-"%char :: a :: rest).
    cbv beta iota. rewrite Ascii.eqb_refl. cbv beta iota.
    by rewrite Hbody, Hfilter.
  - change ([] ++ a :: rest) with (a :: rest).
    cbv beta iota. rewrite (digit_not_char a "-"), (digit_not_char a "+") by done.
    cbv beta iota. by rewrite Hbody, Hfilter.
Qed.

Lemma int_of_digits (negative : bool) (d : Decimal.uint) :
  d ≠ Decimal.Nil →
  Py.int ((if negative then "-" else "") +:+ NilZero.string_of_uint d) =
    Some (if negative then (- Z.of_uint d)%Z else Z.of_uint d).
Proof.
  intros Hd.
  assert (Hs : (if negative then "-" else "") +:+ NilZero.string_of_uint d =
               string_of_list_ascii
                 ((if negative then ["-"%char] else []) ++
                  list_ascii_of_string (NilZero.string_of_uint d))).
  { destruct negative; simpl; by rewrite string_of_list_ascii_of_string. }
  rewrite Hs, int_digit_list.
  - by rewrite string_of_list_ascii_of_string, NilZero.usu.
  - destruct d; done.
  - replace (NilZero.string_of_uint d) with (NilEmpty.string_of_uint d)
      by (by destruct d).
    apply digits_of_uint.
Qed.

Lemma int_str (z : Z) : Py.int (Py.str z) = Some z.
Proof.
  destruct z as [|p|p].
  - reflexivity.
  - rewrite <- (DecimalZ.of_to (Z.pos p)) at 2.
    apply (int_of_digits false (Pos.to_uint p)).
    apply DecimalPos.Unsigned.to_uint_nonnil.
  - rewrite <- (DecimalZ.of_to (Z.neg p)) at 2.
    apply (int_of_digits true (Pos.to_uint p)).
    apply DecimalPos.Unsigned.to_uint_nonnil.
Qed.

#[global] Instance str_inj : Inj (=) (=) Py.str.
Proof.
  intros x y H. apply (f_equal Py.int) in H. rewrite !int_str in H. congruence.
Qed.

(** ** Open sessions under insert and update *)

Lemma select_snoc (fs : list Filter) (t : list Row) (r : Row) :
  select fs (t ++ [r]) =
    select fs t ++ (if decide (Forall (λ f, holds f r) fs) then [(length t, r)] else []).
Proof.
  unfold select, indexed. rewrite imap_app, filter_app. f_equal.
  simpl. rewrite Nat.add_0_r. rewrite filter_cons. simpl. rewrite filter_nil.
  by destruct (decide _).
Qed.

Lemma open_count_snoc (g u : Z) (t : list Row) (r : Row) :
  open_count g u (t ++ [r]) =
    open_count g u t + (if decide (is_open g u r) then 1 else 0).
Proof.
  unfold open_count. rewrite filter_app, length_app. f_equal.
  rewrite filter_cons, filter_nil. by case_decide.
Qed.

Lemma open_count_insert (g u g' u' : Z) (t0 : string) (t : list Row) :
  open_count g' u' (insert g u t0 t) =
    open_count g' u' t + (if decide (g = g' ∧ u = u') then 1 else 0).
Proof.
  unfold insert. rewrite open_count_snoc. f_equal.
  unfold is_open. simpl. repeat case_decide; tauto.
Qed.

Lemma update_first_cases (patch : Row → Row) (fs : list Filter) (t : list Row) :
  update_first patch fs t = t ∧ select fs t = [] ∨
  ∃ i r, t !! i = Some r ∧ Forall (λ f, holds f r) fs ∧
         update_first patch fs t = <[i := patch r]> t.
Proof.
  unfold update_first, limit, order_desc.
  destruct (merge_sort later_first (select fs t)) as [|[i r] rest] eqn:E; simpl.
  - left. split; [done|]. apply Permutation_nil_r. rewrite <- E.
    symmetry. apply merge_sort_Permutation.
  - right. exists i, r.
    assert (Hin : (i, r) ∈ select fs t).
    { rewrite <- (merge_sort_Permutation later_first), E. left. }
    apply elem_of_select in Hin as [Hl Hf]. done.
Qed.

Lemma filter_length_replace {A} (P : A → Prop) `{∀ x, Decision (P x)}
    (l : list A) (i : nat) (x y : A) :
  l !! i = Some x → P x → ¬ P y →
  S (length (filter P (<[i := y]> l))) = length (filter P l).
Proof.
  intros Hl Hx Hy. rewrite insert_take_drop by (by eapply lookup_lt_Some).
  rewrite <- (take_drop_middle l i x Hl) at 3.
  rewrite !filter_app, !length_app, !filter_cons.
  destruct (decide (P x)); [|done]. destruct (decide (P y)); [done|].
  simpl. lia.
Qed.

Lemma filter_length_keep {A} (P : A → Prop) `{∀ x, Decision (P x)}
    (l : list A) (i : nat) (x y : A) :
  l !! i = Some x → ¬ P x → ¬ P y →
  length (filter P (<[i := y]> l)) = length (filter P l).
Proof.
  intros Hl Hx Hy. rewrite insert_take_drop by (by eapply lookup_lt_Some).
  rewrite <- (take_drop_middle l i x Hl) at 3.
  rewrite !filter_app, !length_app, !filter_cons.
  destruct (decide (P x)); [done|]. by destruct (decide (P y)).
Qed.

(** Closing the latest open session of a pair takes one open session away
    from that pair, when it has one, and none from any other pair. *)
Lemma open_count_close (g u g' u' : Z) (lt : string) (cc : gmap string Z) (t : list Row) :
  open_count g' u' (update_first (close lt cc) (open_session_of g u) t) =
    if decide (g = g' ∧ u = u') then pred (open_count g' u' t)
    else open_count g' u' t.
Proof.
  destruct (update_first_cases (close lt cc) (open_session_of g u) t)
    as [[-> Hnone]|(i & r & Hl & Hf & ->)].
  - case_decide as Hd; [|done]. destruct Hd as [-> ->].
    assert (open_count g' u' t = 0) as ->; [|done].
    apply open_count_0. intros r Hr Ho.
    apply list_elem_of_lookup in Hr as [i Hi].
    assert (Hin : (i, r) ∈ select (open_session_of g' u') t).
    { apply elem_of_select. split; [done|]. by apply holds_open_session_of. }
    rewrite Hnone in Hin. by eapply not_elem_of_nil.
  - apply holds_open_session_of in Hf. unfold open_count.
    assert (Hc : ¬ is_open g' u' (close lt cc r)).
    { unfold is_open, close. simpl. intros (_ & _ & ?). done. }
    case_decide as Hd.
    + destruct Hd as [-> ->].
      by rewrite <- (filter_length_replace _ t i r (close lt cc r)).
    + apply (filter_length_keep _ t i r); [done| |done].
      unfold is_open in *. intros (? & ? & _). destruct Hf as (? & ? & _).
      apply Hd. split; congruence.
Qed.
(** ** One session: join, messages, leave *)

Lemma messages_in_cons (c : Z) (m : Message) (rest : list Message) :
  messages_in c (m :: rest) =
    if decide (channel m = c) then S (messages_in c rest) else messages_in c rest.
Proof. unfold messages_in. rewrite filter_cons. by case_decide. Qed.

Lemma tally_after (msgs : list Message) (tally : gmap Z Z) (c : Z) :
  foldl (λ t m, bump (channel m) t) tally msgs !! c =
    if decide (messages_in c msgs = 0) then tally !! c
    else Some (default 0 (tally !! c) + Z.of_nat (messages_in c msgs))%Z.
Proof.
  revert tally. induction msgs as [|m rest IH]; intros tally; [done|].
  simpl. rewrite IH, messages_in_cons. unfold bump.
  destruct (decide (channel m = c)) as [->|Hne].
  - rewrite lookup_insert_eq. simpl.
    destruct (decide (S (messages_in c rest) = 0)); [done|].
    destruct (decide (messages_in c rest = 0)) as [Hz|Hz].
    + f_equal. rewrite Hz. lia.
    + simpl. f_equal. lia.
  - by rewrite lookup_insert_ne by done.
Qed.

Lemma entry_insert_eq (g u : Z) (tally : gmap Z Z) bucket mc :
  entry g u (<[g := <[u := tally]> bucket]> mc) = Some tally.
Proof. unfold entry. rewrite lookup_insert_eq. simpl. by rewrite lookup_insert_eq. Qed.

Lemma entry_delete (g u : Z) bucket mc :
  entry g u (<[g := delete u bucket]> mc) = None.
Proof. unfold entry. rewrite lookup_insert_eq. simpl. by rewrite lookup_delete_eq. Qed.

Lemma run_cons (ev : Event) (evs : list Event) (st : State) :
  run (ev :: evs) st = run evs (dispatch st ev).
Proof. reflexivity. Qed.

Lemma run_app (evs1 evs2 : list Event) (st : State) :
  run (evs1 ++ evs2) st = run evs2 (run evs1 st).
Proof. apply foldl_app. Qed.

Lemma dispatch_message (g u : Z) (m : Message) (tally : gmap Z Z) (st : State) :
  sent_by g u m →
  entry g u (message_counters st) = Some tally →
  sessions (dispatch st (MessageCreate m)) = sessions st ∧
  entry g u (message_counters (dispatch st (MessageCreate m))) =
    Some (bump (channel m) tally).
Proof.
  intros (Hbot & Hu & Hg) He.
  destruct (guild m) as [gd|] eqn:Egd; [|done]. injection Hg as Hg.
  unfold dispatch. simpl.
  destruct (on_message_guild m gd st Hbot Egd) as [out ->]. simpl.
  rewrite Hg, Hu, He. split; [done|]. apply entry_insert_eq.
Qed.

Lemma run_messages (g u : Z) (msgs : list Message) (tally : gmap Z Z) (st : State) :
  Forall (sent_by g u) msgs →
  entry g u (message_counters st) = Some tally →
  sessions (run (MessageCreate <$> msgs) st) = sessions st ∧
  entry g u (message_counters (run (MessageCreate <$> msgs) st)) =
    Some (foldl (λ t m, bump (channel m) t) tally msgs).
Proof.
  revert tally st. induction msgs as [|m rest IH]; intros tally st Hall He; [done|].
  apply Forall_cons in Hall as [Hm Hrest].
  destruct (dispatch_message g u m tally st Hm He) as [Hs1 He1].
  rewrite fmap_cons, run_cons.
  destruct (IH _ _ Hrest He1) as [Hs Ht].
  split; [by rewrite Hs|done].
Qed.

Lemma update_first_fresh (patch : Row → Row) (g u : Z) (t : list Row) (r : Row) :
  open_count g u t = 0 → is_open g u r →
  update_first patch (open_session_of g u) (t ++ [r]) = t ++ [patch r].
Proof.
  intros H0 Hr. unfold update_first. rewrite select_snoc, select_open_none by done.
  rewrite decide_True by (by apply holds_open_session_of). simpl.
  rewrite insert_app_r_alt by done. by rewrite Nat.sub_diag.
Qed.

Lemma run_session (member : Member) (t0 t1 : string) (msgs : list Message) (st : State) :
  open_count (m_guild member) (m_id member) (sessions st) = 0 →
  Forall (sent_by (m_guild member) (m_id member)) msgs →
  let st' := run (session_events member t0 t1 msgs) st in
  sessions st' =
    sessions st ++
      [closed_row (m_guild member) (m_id member) t0 t1
         (kmap Py.str (foldl (λ t m, bump (channel m) t) ∅ msgs))] ∧
  entry (m_guild member) (m_id member) (message_counters st') = None.
Proof.
  intros H0 Hall. unfold session_events. rewrite run_cons, run_app.
  set (st1 := dispatch st (MemberJoin member t0)).
  assert (Hs1 : sessions st1 = insert (m_guild member) (m_id member) t0 (sessions st)).
  { unfold st1, dispatch. simpl. by rewrite on_member_join_eq. }
  assert (He1 : entry (m_guild member) (m_id member) (message_counters st1) = Some ∅).
  { unfold st1, dispatch. simpl. rewrite on_member_join_eq. apply entry_insert_eq. }
  destruct (run_messages _ _ msgs ∅ st1 Hall He1) as [Hs He].
  set (st2 := run (MessageCreate <$> msgs) st1) in *.
  simpl. unfold run. simpl. unfold dispatch. simpl.
  rewrite on_member_remove_eq. simpl. rewrite He, Hs, Hs1. simpl.
  split; [|apply entry_delete].
  unfold insert. by rewrite (update_first_fresh _ _ _ _ _ H0).
Qed.

(** C2: from a state where the pair has no open session, the join of the
    member at [t0], any messages of that (non-bot) user in that guild and the
    leave at [t1] add one closed row (guild, user, [t0], [t1], counts) to the
    table; the counts have the key [str(c)] with the number of messages for
    every channel [c] that got at least one message, and no other key; and
    afterwards the counter has no tally for the user under the guild. *)
Theorem session_records_channel_counts
    (member : Member) (t0 t1 : string) (msgs : list Message) (st : State) :
  open_count (m_guild member) (m_id member) (sessions st) = 0 →
  Forall (sent_by (m_guild member) (m_id member)) msgs →
  let st' := run (session_events member t0 t1 msgs) st in
  ∃ cc : gmap string Z,
    sessions st' =
      sessions st ++ [closed_row (m_guild member) (m_id member) t0 t1 cc] ∧
    (∀ c, cc !! Py.str c =
            if decide (messages_in c msgs = 0) then None
            else Some (Z.of_nat (messages_in c msgs))) ∧
    (∀ k, is_Some (cc !! k) → ∃ c, k = Py.str c ∧ messages_in c msgs ≠ 0) ∧
    entry (m_guild member) (m_id member) (message_counters st') = None.
Proof.
  intros H0 Hall st'.
  destruct (run_session member t0 t1 msgs st H0 Hall) as [Hs He].
  eexists. split; [exact Hs|]. split; [|split; [|exact He]].
  - intros c. rewrite lookup_kmap by apply _. rewrite tally_after.
    rewrite lookup_empty. simpl. by case_decide.
  - intros k [n Hk]. apply lookup_kmap_Some in Hk as (c & -> & Hc); [|apply _].
    exists c. split; [done|]. rewrite tally_after in Hc.
    case_decide; [by rewrite lookup_empty in Hc|done].
Qed.

(** The scenario of the specification: user 2 joins guild 1 at T0, sends
    three messages in channel 1001 and two in channel 1002, and leaves at
    T1. *)
Lemma session_records_channel_counts_witness :
  ∃ cc : gmap string Z,
    sessions (run (session_events alice "T0" "T1"
                     [says 1001; says 1002; says 1001; says 1001; says 1002]) init) =
      [closed_row 1 2 "T0" "T1" cc] ∧
    cc !! "1001" = Some 3%Z ∧ cc !! "1002" = Some 2%Z.
Proof.
  destruct (session_records_channel_counts alice "T0" "T1"
              [says 1001; says 1002; says 1001; says 1001; says 1002] init)
    as (cc & Hs & Hc & _).
  - reflexivity.
  - repeat constructor.
  - exists cc. split; [exact Hs|]. split.
    + exact (Hc 1001%Z).
    + exact (Hc 1002%Z).
Defined.

Example session_scenario :
  run (session_events alice "T0" "T1"
         [says 1001; says 1002; says 1001; says 1001; says 1002]) init =
    {| sessions := [closed_row 1 2 "T0" "T1" {[ "1001" := 3%Z; "1002" := 2%Z ]}];
       message_counters := {[ 1%Z := ∅ ]} |}.
Proof. vm_compute. reflexivity. Qed.

(** C3: from a state where the pair has no open session, a join followed at
    once by the leave adds one closed row whose [channel_counts] is the empty
    mapping. *)
Theorem join_then_leave_records_no_counts (member : Member) (t0 t1 : string) (st : State) :
  open_count (m_guild member) (m_id member) (sessions st) = 0 →
  sessions (run [MemberJoin member t0; MemberRemove member t1] st) =
    sessions st ++ [closed_row (m_guild member) (m_id member) t0 t1 ∅].
Proof.
  intros H0.
  destruct (run_session member t0 t1 [] st H0) as [Hs _]; [done|].
  simpl in Hs. by rewrite kmap_empty in Hs.
Qed.

Lemma join_then_leave_records_no_counts_witness :
  sessions (run [MemberJoin alice "T0"; MemberRemove alice "T1"] init) =
    [closed_row 1 2 "T0" "T1" ∅].
Proof. apply (join_then_leave_records_no_counts alice "T0" "T1" init). reflexivity. Defined.
(** ** Bootstrap *)

Lemma for_each_pure {A} (xs : list A) (body : A → M unit) (f : A → State → State) :
  (∀ x st, body x st = Ret tt (f x st) []) →
  ∀ st, for_each xs body st = Ret tt (foldl (λ s x, f x s) st xs) [].
Proof.
  intros Hbody. induction xs as [|x rest IH]; intros st; [done|].
  simpl. unfold bind. by rewrite Hbody, IH.
Qed.

Lemma ready_member_eq (now : string) (guild : Guild) (member : Member) (st : State) :
  (if m_bot member then ret tt
   else
     counters_clear (g_id guild) (m_id member) ;!
     let! data := db_select (open_session_of (g_id guild) (m_id member)) id in
     match data with
     | [] => db_insert (g_id guild) (m_id member) now
     | _ :: _ => ret tt
     end) st = Ret tt (ready_member now (g_id guild) member st) [].
Proof.
  unfold ready_member. destruct (m_bot member); [done|].
  unfold bind at 1. rewrite counters_clear_eq.
  unfold bind, db_select, get_sessions, attach. simpl.
  destruct (select _ (sessions st)) as [|[i r] rest]; simpl; done.
Qed.

Lemma on_ready_eq (now : string) (guilds : list Guild) (st : State) :
  on_ready now guilds st =
    Ret tt (foldl (λ s guild,
                     foldl (λ s' member, ready_member now (g_id guild) member s')
                           s (g_members guild))
                  st guilds) [].
Proof.
  unfold on_ready.
  apply (for_each_pure guilds _
           (λ guild s, foldl (λ s' member, ready_member now (g_id guild) member s')
                             s (g_members guild))).
  intros guild s. apply (for_each_pure (g_members guild) _
                           (λ member s', ready_member now (g_id guild) member s')).
  intros member s'. apply ready_member_eq.
Qed.

Lemma sessions_ready_members (now : string) (g : Z) (members : list Member) (st : State) :
  sessions (foldl (λ s' member, ready_member now g member s') st members) =
    foldl (attach now) (sessions st)
      ((λ member, (g, m_id member)) <$> filter (λ member, m_bot member = false) members).
Proof.
  revert st. induction members as [|m rest IH]; intros st; [done|].
  simpl. rewrite IH, filter_cons. unfold ready_member at 1.
  destruct (m_bot m); done.
Qed.

Lemma sessions_on_ready (now : string) (guilds : list Guild) (st : State) :
  sessions (dispatch st (Ready now guilds)) =
    foldl (attach now) (sessions st) (present_pairs guilds).
Proof.
  unfold dispatch. simpl. rewrite on_ready_eq. simpl.
  revert st. induction guilds as [|guild rest IH]; intros st; [done|].
  simpl. rewrite IH, sessions_ready_members.
  unfold present_pairs. simpl. by rewrite foldl_app.
Qed.

Lemma select_open_nil_iff (g u : Z) (t : list Row) :
  select (open_session_of g u) t = [] ↔ open_count g u t = 0.
Proof.
  split; [|apply select_open_none].
  intros Hnone. apply open_count_0. intros r Hr Ho.
  apply list_elem_of_lookup in Hr as [i Hi].
  assert (Hin : (i, r) ∈ select (open_session_of g u) t).
  { apply elem_of_select. split; [done|]. by apply holds_open_session_of. }
  rewrite Hnone in Hin. by eapply not_elem_of_nil.
Qed.

Lemma attach_open (now : string) (t : list Row) (g u : Z) :
  open_count g u t ≠ 0 → attach now t (g, u) = t.
Proof.
  intros H. unfold attach. simpl.
  destruct (select (open_session_of g u) t) eqn:E; [|done].
  by apply select_open_nil_iff in E.
Qed.

Lemma open_count_attach (now : string) (t : list Row) (g u g' u' : Z) :
  open_count g' u' (attach now t (g, u)) =
    if decide (g = g' ∧ u = u') then Nat.max 1 (open_count g' u' t)
    else open_count g' u' t.
Proof.
  destruct (decide (open_count g u t = 0)) as [H0|H0].
  - unfold attach. simpl. rewrite (select_open_none _ _ _ H0).
    rewrite open_count_insert. case_decide as Hd; [|lia].
    destruct Hd as [-> ->]. rewrite H0. done.
  - rewrite attach_open by done. case_decide as Hd; [|done].
    destruct Hd as [-> ->]. lia.
Qed.

Lemma open_count_attach_all (now : string) (ps : list (Z * Z)) (t : list Row) (g u : Z) :
  open_count g u (foldl (attach now) t ps) =
    if decide ((g, u) ∈ ps) then Nat.max 1 (open_count g u t)
    else open_count g u t.
Proof.
  revert t. induction ps as [|[g0 u0] rest IH]; intros t.
  - destruct (decide ((g, u) ∈ [])) as [Hin|]; [|done].
    by apply not_elem_of_nil in Hin.
  - simpl. rewrite IH, open_count_attach.
    destruct (decide ((g, u) ∈ rest)) as [Hin|Hnin];
      destruct (decide ((g, u) ∈ (g0, u0) :: rest)) as [Hin'|Hnin'];
      destruct (decide (g0 = g ∧ u0 = u)) as [[Hg Hu]|Hne]; try lia.
    + destruct Hnin'. by right.
    + destruct Hnin'. by right.
    + apply elem_of_cons in Hin' as [Heq|?]; [|done].
      injection Heq as -> ->. by destruct Hne.
    + destruct Hnin'. subst. left.
Qed.

Lemma attach_all_open (now : string) (ps : list (Z * Z)) (t : list Row) :
  (∀ g u, (g, u) ∈ ps → open_count g u t ≠ 0) → foldl (attach now) t ps = t.
Proof.
  induction ps as [|[g u] rest IH]; intros H; [done|].
  simpl. rewrite attach_open by (apply H; left).
  apply IH. intros g' u' Hin. apply H. by right.
Qed.

Lemma elem_of_present_pairs (guilds : list Guild) (gd : Guild) (member : Member) :
  gd ∈ guilds → member ∈ g_members gd → m_bot member = false →
  (g_id gd, m_id member) ∈ present_pairs guilds.
Proof.
  intros Hg Hm Hb. unfold present_pairs. apply list_elem_of_bind.
  exists gd. split; [|done]. apply list_elem_of_fmap. exists member.
  split; [done|]. by apply list_elem_of_filter.
Qed.

(** C4: running the bootstrap twice in a row is the same as running it once:
    the second run inserts nothing, and a non-bot member that had at most one
    open session before has exactly one after. *)
Theorem bootstrap_idempotent
    (now1 now2 : string) (guilds : list Guild) (gd : Guild) (member : Member)
    (st : State) :
  gd ∈ guilds → member ∈ g_members gd → m_bot member = false →
  open_count (g_id gd) (m_id member) (sessions st) ≤ 1 →
  let st1 := run [Ready now1 guilds] st in
  let st2 := run [Ready now1 guilds; Ready now2 guilds] st in
  sessions st2 = sessions st1 ∧
  open_count (g_id gd) (m_id member) (sessions st1) = 1 ∧
  open_count (g_id gd) (m_id member) (sessions st2) = 1.
Proof.
  intros Hg Hm Hb Hle st1 st2.
  assert (Hin := elem_of_present_pairs guilds gd member Hg Hm Hb).
  assert (H1 : sessions st1 =
               foldl (attach now1) (sessions st) (present_pairs guilds)).
  { unfold st1. rewrite run_cons. simpl. apply sessions_on_ready. }
  assert (H2 : sessions st2 = sessions st1).
  { unfold st2. rewrite !run_cons. simpl. rewrite sessions_on_ready.
    fold (run [Ready now1 guilds] st). change (run [Ready now1 guilds] st) with st1.
    apply attach_all_open. intros g u Hgu. rewrite H1, open_count_attach_all.
    rewrite decide_True by done. lia. }
  assert (Hc : open_count (g_id gd) (m_id member) (sessions st1) = 1).
  { rewrite H1, open_count_attach_all. rewrite decide_True by done. lia. }
  split; [done|]. split; [done|]. by rewrite H2.
Qed.

Lemma bootstrap_idempotent_witness :
  sessions (run [Ready "T0" [lobby]; Ready "T1" [lobby]] init) =
    sessions (run [Ready "T0" [lobby]] init) ∧
  open_count 1 2 (sessions (run [Ready "T0" [lobby]] init)) = 1 ∧
  open_count 1 2 (sessions (run [Ready "T0" [lobby]; Ready "T1" [lobby]] init)) = 1.
Proof.
  apply (bootstrap_idempotent "T0" "T1" [lobby] lobby alice init).
  - left.
  - left.
  - reflexivity.
  - vm_compute. lia.
Defined.
(** ** At most one open session *)

Lemma sessions_on_message (message : Message) (st : State) :
  sessions (dispatch st (MessageCreate message)) = sessions st.
Proof.
  unfold dispatch. simpl. unfold on_message.
  destruct (m_bot (author message)) eqn:Hbot; [done|].
  destruct (guild message) as [gd|] eqn:Hg; [|done].
  fold (on_message message).
  assert (H := on_message_guild message gd st Hbot Hg).
  unfold on_message in H. rewrite Hbot, Hg in H. by destruct H as [out ->].
Qed.

Lemma one_open_session_step (present : gset (Z * Z)) (ev : Event) (st : State) :
  one_open_session present (sessions st) →
  match ev with
  | Ready _ guilds =>
      one_open_session (list_to_set (present_pairs guilds) ∪ present)
        (sessions (dispatch st ev))
  | MemberJoin member _ =>
      (m_guild member, m_id member) ∉ present →
      one_open_session ({[ (m_guild member, m_id member) ]} ∪ present)
        (sessions (dispatch st ev))
  | MessageCreate _ => one_open_session present (sessions (dispatch st ev))
  | MemberRemove member _ =>
      one_open_session (present ∖ {[ (m_guild member, m_id member) ]})
        (sessions (dispatch st ev))
  end.
Proof.
  intros Hinv. destruct ev as [now guilds|member now|message|member now].
  - intros g u. destruct (Hinv g u) as [Hle H0].
    rewrite sessions_on_ready, open_count_attach_all.
    case_decide as Hin.
    + split; [lia|]. intros Hnot. destruct Hnot.
      apply elem_of_union_l, elem_of_list_to_set. done.
    + split; [done|]. intros Hnot. apply H0. set_solver.
  - intros Hfresh g u. destruct (Hinv g u) as [Hle H0].
    unfold dispatch. simpl. rewrite on_member_join_eq. simpl.
    rewrite open_count_insert. case_decide as Hd.
    + destruct Hd as [Hg Hu]. subst g u. rewrite (H0 Hfresh).
      split; [simpl; lia|]. set_solver.
    + split; [lia|]. intros Hnot. rewrite H0; [done|].
      intros Hin. apply Hnot. set_solver.
  - by rewrite sessions_on_message.
  - intros g u. destruct (Hinv g u) as [Hle H0].
    unfold dispatch. simpl. rewrite on_member_remove_eq. simpl.
    rewrite open_count_close. case_decide as Hd.
    + split; lia.
    + split; [done|]. intros Hnot. apply H0. intros Hin. apply Hnot.
      apply elem_of_difference. split; [done|].
      intros Heq. apply elem_of_singleton in Heq. injection Heq as Hg Hu.
      by destruct Hd.
Qed.

Lemma one_open_session_run (evs : list Event) (present : gset (Z * Z)) (st : State) :
  one_open_session present (sessions st) →
  follows_protocol present evs = true →
  ∀ g u, open_count g u (sessions (run evs st)) ≤ 1.
Proof.
  revert present st. induction evs as [|ev rest IH]; intros present st Hinv Hp g u.
  - apply Hinv.
  - rewrite run_cons. pose proof (one_open_session_step present ev st Hinv) as Hstep.
    destruct ev as [now guilds|member now|message|member now]; simpl in Hp.
    + by eapply IH.
    + apply andb_prop in Hp as [Hfresh Hp]. apply bool_decide_eq_true in Hfresh.
      eapply IH; [by apply Hstep|done].
    + by eapply IH.
    + by eapply IH.
Qed.

Lemma follows_protocol_take (evs : list Event) (present : gset (Z * Z)) (k : nat) :
  follows_protocol present evs = true → follows_protocol present (take k evs) = true.
Proof.
  revert present k. induction evs as [|ev rest IH]; intros present k Hp.
  - by destruct k.
  - destruct k as [|k]; [done|].
    destruct ev as [now guilds|member now|message|member now]; simpl in *;
      try (by apply IH).
    apply andb_prop in Hp as [Hfresh Hp]. rewrite Hfresh. simpl. by apply IH.
Qed.

(** C1, as the code has it: start from a table in which every pair has at
    most one open session, and none unless its session is in progress (the
    empty table of a fresh start is one), and let the events follow the
    session protocol, in which a join of a pair arrives only while the pair
    has no session in progress (not after a bootstrap or an earlier join of
    the pair that no leave has ended); bootstraps, messages and leaves may
    come at any time and for any members.  Then after every prefix of the
    events, every (guild, user) pair has at most one session row with a null
    [leave_time]. *)
Theorem at_most_one_open_session
    (present : gset (Z * Z)) (st : State) (evs : list Event) (k : nat) (g u : Z) :
  one_open_session present (sessions st) →
  follows_protocol present evs = true →
  open_count g u (sessions (run (take k evs) st)) ≤ 1.
Proof.
  intros Hinv Hp. apply (one_open_session_run (take k evs) present st).
  - exact Hinv.
  - by apply follows_protocol_take.
Qed.

Lemma one_open_session_init : one_open_session ∅ (sessions init).
Proof. intros g u. simpl. split; [unfold open_count; simpl; lia|done]. Qed.

Lemma at_most_one_open_session_witness :
  open_count 1 2
    (sessions (run (take 4 [Ready "T0" [lobby]; MessageCreate (says 1001);
                            MemberRemove alice "T1"; MemberJoin alice "T2";
                            MessageCreate (says 1002); MemberRemove alice "T3"])
                   init)) ≤ 1.
Proof.
  apply (at_most_one_open_session ∅ init
           [Ready "T0" [lobby]; MessageCreate (says 1001);
            MemberRemove alice "T1"; MemberJoin alice "T2";
            MessageCreate (says 1002); MemberRemove alice "T3"] 4 1 2).
  - intros g u. split; [vm_compute; lia|reflexivity].
  - vm_compute. reflexivity.
Defined.

(** C1, as stated, fails: a bootstrap that finds user 2 in guild 1 followed
    by a join of the same user (then a message, then the leave) goes through
    a state with two open sessions of the pair, and one of them is still open
    after the leave. *)
Lemma bootstrap_then_join_opens_two_sessions :
  open_count 1 2 (sessions (run [Ready "T0" [lobby]; MemberJoin alice "T1"] init)) = 2 ∧
  ¬ open_count 1 2
      (sessions (run (take 2 [Ready "T0" [lobby]; MemberJoin alice "T1";
                              MessageCreate (says 1001); MemberRemove alice "T2"])
                     init)) ≤ 1.
Proof.
  split; [reflexivity|]. vm_compute. lia.
Qed.

(** * Further properties of the handlers *)

(** ** The order of the store *)

Lemma compare_trans_le (s1 s2 s3 : string) :
  String.compare s1 s2 ≠ Gt → String.compare s2 s3 ≠ Gt → String.compare s1 s3 ≠ Gt.
Proof.
  revert s2 s3. induction s1 as [|a1 s1 IH]; intros [|a2 s2] [|a3 s3]; simpl; try done.
  unfold Ascii.compare.
  destruct (N.compare_spec (N_of_ascii a1) (N_of_ascii a2)) as [E12|L12|G12];
    destruct (N.compare_spec (N_of_ascii a2) (N_of_ascii a3)) as [E23|L23|G23];
    try done.
  - rewrite E12, E23, N.compare_refl. apply IH.
  - intros _ _. rewrite E12. by rewrite (proj2 (N.compare_lt_iff _ _) L23).
  - intros _ _. rewrite <- E23. by rewrite (proj2 (N.compare_lt_iff _ _) L12).
  - intros _ _. by rewrite (proj2 (N.compare_lt_iff _ _) (N.lt_trans _ _ _ L12 L23)).
Qed.

Lemma leb_trans (s1 s2 s3 : string) :
  String.leb s1 s2 → String.leb s2 s3 → String.leb s1 s3.
Proof.
  unfold String.leb. intros H12 H23.
  pose proof (compare_trans_le s1 s2 s3) as H.
  destruct (String.compare s1 s2), (String.compare s2 s3), (String.compare s1 s3);
    try done; by destruct H.
Qed.

#[global] Instance later_first_total : Total later_first.
Proof.
  intros a b. unfold later_first.
  destruct (String.leb_total (join_time b.2) (join_time a.2)) as [H|H];
    rewrite H; [by left|by right].
Qed.

#[global] Instance later_first_trans : Transitive later_first.
Proof. intros a b c Hab Hbc. unfold later_first in *. by eapply leb_trans. Qed.

(** The first row of the sorted selection is a selected row whose
    [join_time] is not before that of any other selected row. *)
Lemma order_desc_head (rs : list (nat * Row)) (x : nat * Row) (rest : list (nat * Row)) :
  order_desc rs = x :: rest →
  x ∈ rs ∧ ∀ y, y ∈ rs → String.leb (join_time y.2) (join_time x.2).
Proof.
  intros E. unfold order_desc in E.
  pose proof (merge_sort_Permutation later_first rs) as Hp.
  pose proof (StronglySorted_merge_sort later_first rs) as Hs.
  rewrite E in Hp, Hs. split.
  - rewrite <- Hp. left.
  - intros y Hy. rewrite <- Hp in Hy. apply elem_of_cons in Hy as [->|Hy].
    + unfold String.leb. destruct (String.compare _ _) eqn:Ec; try done.
      pose proof (String.compare_antisym (join_time x.2) (join_time x.2)) as Ha.
      rewrite Ec in Ha. done.
    + apply StronglySorted_inv in Hs as [_ Hall].
      rewrite Forall_forall in Hall. by apply Hall.
Qed.

(** ** Rows are kept *)

Lemma update_first_latest (patch : Row → Row) (fs : list Filter) (t : list Row) :
  select fs t ≠ [] →
  ∃ i r, t !! i = Some r ∧ Forall (λ f, holds f r) fs ∧
         (∀ r', r' ∈ t → Forall (λ f, holds f r') fs →
                String.leb (join_time r') (join_time r)) ∧
         update_first patch fs t = <[i := patch r]> t.
Proof.
  intros Hne. unfold update_first, limit.
  destruct (order_desc (select fs t)) as [|[i r] rest] eqn:E.
  - destruct Hne. apply Permutation_nil_r. rewrite <- E.
    symmetry. apply merge_sort_Permutation.
  - apply order_desc_head in E as [Hin Hmax].
    apply elem_of_select in Hin as [Hl Hf].
    exists i, r. repeat split; try done.
    intros r' Hr' Hf'. apply list_elem_of_lookup in Hr' as [j Hj].
    apply (Hmax (j, r')). by apply elem_of_select.
Qed.

Lemma attach_prefix (now : string) (t : list Row) (p : Z * Z) :
  t `prefix_of` attach now t p.
Proof.
  unfold attach. destruct (select _ t); [|done].
  unfold insert. by apply prefix_app_r.
Qed.

Lemma attach_all_prefix (now : string) (ps : list (Z * Z)) (t : list Row) :
  t `prefix_of` foldl (attach now) t ps.
Proof.
  revert t. induction ps as [|p rest IH]; intros t; [done|].
  simpl. etrans; [apply (attach_prefix now t p)|apply IH].
Qed.

Lemma dispatch_keeps_rows (ev : Event) (st : State) (i : nat) (r : Row) :
  sessions st !! i = Some r →
  ∃ r', sessions (dispatch st ev) !! i = Some r' ∧
        (r' = r ∨ leave_time r = None ∧ ∃ lt cc, r' = close lt cc r).
Proof.
  intros Hl. destruct ev as [now guilds|member now|message|member now].
  - exists r. split; [|by left]. rewrite sessions_on_ready.
    by eapply prefix_lookup_Some; [|apply attach_all_prefix].
  - exists r. split; [|by left]. unfold dispatch. simpl.
    rewrite on_member_join_eq. simpl. unfold insert.
    by apply lookup_app_l_Some.
  - exists r. split; [|by left]. by rewrite sessions_on_message.
  - unfold dispatch. simpl. rewrite on_member_remove_eq. simpl.
    match goal with |- context [update_first ?p ?fs ?t] =>
      destruct (update_first_cases p fs t) as [[-> _]|(j & r0 & Hj & Hf & ->)] end.
    + exists r. split; [done|by left].
    + destruct (decide (i = j)) as [->|Hne].
      * rewrite Hl in Hj. injection Hj as <-.
        eexists. split; [apply list_lookup_insert_eq; by eapply lookup_lt_Some|].
        right. apply holds_open_session_of in Hf as (_ & _ & Hopen).
        split; [done|]. by eexists _, _.
      * exists r. split; [|by left]. by rewrite list_lookup_insert_ne.
Qed.

(** X1: a closed session is final: whatever events follow, a row with a
    [leave_time] stays at its place in the table, unchanged. *)
Theorem closed_sessions_are_final (evs : list Event) (st : State) (i : nat) (r : Row) :
  sessions st !! i = Some r →
  leave_time r ≠ None →
  sessions (run evs st) !! i = Some r.
Proof.
  revert st. induction evs as [|ev rest IH]; intros st Hl Hc; [done|].
  rewrite run_cons. apply IH; [|done].
  destruct (dispatch_keeps_rows ev st i r Hl) as (r' & Hr' & [->|[Hopen _]]); done.
Qed.

Lemma closed_sessions_are_final_witness :
  sessions (run [MemberJoin alice "T2"; MessageCreate (says 1001);
                 MemberRemove alice "T3"; Ready "T4" [lobby]]
              (run (session_events alice "T0" "T1" []) init)) !! 0
  = Some (closed_row 1 2 "T0" "T1" ∅).
Proof.
  apply (closed_sessions_are_final
           [MemberJoin alice "T2"; MessageCreate (says 1001);
            MemberRemove alice "T3"; Ready "T4" [lobby]]
           (run (session_events alice "T0" "T1" []) init) 0
           (closed_row 1 2 "T0" "T1" ∅)).
  - vm_compute. reflexivity.
  - simpl. discriminate.
Defined.

(** X2: no event deletes a row or changes whose session it is: a row of the
    table is still at its place after any events, with the same guild, user
    and join time. *)
Theorem sessions_are_never_deleted (evs : list Event) (st : State) (i : nat) (r : Row) :
  sessions st !! i = Some r →
  ∃ r', sessions (run evs st) !! i = Some r' ∧
        guild_id r' = guild_id r ∧ user_id r' = user_id r ∧
        join_time r' = join_time r.
Proof.
  revert st r. induction evs as [|ev rest IH]; intros st r Hl; [by exists r|].
  rewrite run_cons.
  destruct (dispatch_keeps_rows ev st i r Hl) as (r1 & Hr1 & Hcase).
  destruct (IH _ _ Hr1) as (r' & Hr' & Hg & Hu & Hj).
  exists r'. split; [done|].
  destruct Hcase as [->|(_ & lt & cc & ->)]; [done|].
  by rewrite Hg, Hu, Hj.
Qed.

Lemma sessions_are_never_deleted_witness :
  ∃ r', sessions (run [MessageCreate (says 1001); MemberRemove alice "T1"]
                    (run [MemberJoin alice "T0"] init)) !! 0 = Some r' ∧
        guild_id r' = 1%Z ∧ user_id r' = 2%Z ∧ join_time r' = "T0".
Proof.
  apply (sessions_are_never_deleted
           [MessageCreate (says 1001); MemberRemove alice "T1"]
           (run [MemberJoin alice "T0"] init) 0
           {| guild_id := 1; user_id := 2; join_time := "T0";
              leave_time := None; channel_counts := None |}).
  vm_compute. reflexivity.
Defined.

(** ** Leaving *)

(** X3: when the pair has open sessions, [on_member_remove] closes one whose
    [join_time] is not before that of any other open session of the pair: it
    gets the leave time and the popped tally with text keys, and every other
    row is left as it is. *)
Theorem on_member_remove_closes_latest (member : Member) (now : string) (st : State) :
  open_count (m_guild member) (m_id member) (sessions st) ≠ 0 →
  ∃ i r,
    sessions st !! i = Some r ∧
    is_open (m_guild member) (m_id member) r ∧
    (∀ r', r' ∈ sessions st → is_open (m_guild member) (m_id member) r' →
           String.leb (join_time r') (join_time r)) ∧
    sessions (res_state (on_member_remove member now st)) =
      <[i := closed_row (m_guild member) (m_id member) (join_time r) now
               (kmap Py.str
                  (default ∅ (entry (m_guild member) (m_id member)
                                (message_counters st))))]> (sessions st).
Proof.
  intros Hne. rewrite on_member_remove_eq. simpl.
  match goal with |- context [update_first ?p ?fs ?t] =>
    destruct (update_first_latest p fs t) as (i & r & Hl & Hf & Hmax & ->) end.
  { intros Hnil. by apply select_open_nil_iff in Hnil. }
  apply holds_open_session_of in Hf. exists i, r. repeat split; try apply Hf; try done.
  - intros r' Hr' Ho. apply Hmax; [done|]. by apply holds_open_session_of.
  - destruct Hf as (Hg & Hu & _). unfold close, closed_row. by rewrite Hg, Hu.
Qed.

Lemma on_member_remove_closes_latest_witness :
  ∃ i r,
    sessions two_open !! i = Some r ∧
    is_open 1 2 r ∧
    (∀ r', r' ∈ sessions two_open → is_open 1 2 r' →
           String.leb (join_time r') (join_time r)) ∧
    sessions (res_state (on_member_remove alice "T2" two_open)) =
      <[i := closed_row 1 2 (join_time r) "T2"
               (kmap Py.str (default ∅ (entry 1 2 (message_counters two_open))))]>
        (sessions two_open).
Proof.
  apply (on_member_remove_closes_latest alice "T2" two_open).
  vm_compute. lia.
Defined.

Example leave_closes_the_later_of_two :
  sessions (res_state (on_member_remove alice "T2" two_open)) =
    [ {| guild_id := 1; user_id := 2; join_time := "T0";
         leave_time := None; channel_counts := None |};
      closed_row 1 2 "T1" "T2" ∅ ].
Proof. vm_compute. reflexivity. Qed.

(** ** Tallies of other users *)

Lemma entry_insert_ne (g u g' u' : Z) (tally : gmap Z Z) mc :
  (g', u') ≠ (g, u) →
  entry g' u' (<[g := <[u := tally]> (default ∅ (mc !! g))]> mc) = entry g' u' mc.
Proof.
  intros Hne. unfold entry. destruct (decide (g = g')) as [->|Hg].
  - rewrite lookup_insert_eq. simpl.
    rewrite lookup_insert_ne by congruence.
    destruct (mc !! g'); simpl; [done|apply lookup_empty].
  - by rewrite lookup_insert_ne.
Qed.

Lemma entry_delete_ne (g u g' u' : Z) mc :
  (g', u') ≠ (g, u) →
  entry g' u' (<[g := delete u (default ∅ (mc !! g))]> mc) = entry g' u' mc.
Proof.
  intros Hne. unfold entry. destruct (decide (g = g')) as [->|Hg].
  - rewrite lookup_insert_eq. simpl.
    rewrite lookup_delete_ne by congruence.
    destruct (mc !! g'); simpl; [done|apply lookup_empty].
  - by rewrite lookup_insert_ne.
Qed.

(** X4: a message of a non-bot author who has a tally in the guild raises
    nothing and leaves the table unchanged; the author's count for the
    channel of the message goes up by exactly one (from 0 when the channel
    had no count), the author's counts for other channels and the tallies of
    all other (guild, user) pairs stay as they were. *)
Theorem on_message_counts_one
    (message : Message) (gd : Guild) (tally : gmap Z Z) (st : State) :
  m_bot (author message) = false →
  guild message = Some gd →
  entry (g_id gd) (m_id (author message)) (message_counters st) = Some tally →
  let st' := res_state (on_message message st) in
  raised (on_message message st) = None ∧
  sessions st' = sessions st ∧
  (∃ tally',
     entry (g_id gd) (m_id (author message)) (message_counters st') = Some tally' ∧
     tally' !! channel message = Some (default 0 (tally !! channel message) + 1)%Z ∧
     ∀ c, c ≠ channel message → tally' !! c = tally !! c) ∧
  (∀ g' u', (g', u') ≠ (g_id gd, m_id (author message)) →
            entry g' u' (message_counters st') = entry g' u' (message_counters st)).
Proof.
  intros Hbot Hg He.
  destruct (on_message_guild message gd st Hbot Hg) as [out ->].
  rewrite He. simpl. repeat split.
  - eexists. split; [apply entry_insert_eq|]. split.
    + apply lookup_insert_eq.
    + intros c Hc. by rewrite lookup_insert_ne.
  - intros g' u' Hne. by apply entry_insert_ne.
Qed.

Lemma on_message_counts_one_witness :
  ∃ tally',
    entry 1 2 (message_counters
                 (res_state (on_message (says 1001)
                               (run [MemberJoin alice "T0"] init)))) = Some tally' ∧
    tally' !! 1001%Z = Some 1%Z.
Proof.
  destruct (on_message_counts_one (says 1001) lobby ∅
              (run [MemberJoin alice "T0"] init))
    as (_ & _ & (tally' & He & Hc & _) & _); try reflexivity.
  exists tally'. split; [exact He|exact Hc].
Defined.

(** X5: [on_member_join] raises nothing, appends exactly one open session of
    the pair with the given join time, and starts the pair's tally from
    empty whatever tally was left over; the rows already in the table and
    the tallies of all other pairs stay as they were. *)
Theorem on_member_join_opens_session (member : Member) (now : string) (st : State) :
  let st' := res_state (on_member_join member now st) in
  raised (on_member_join member now st) = None ∧
  sessions st' =
    sessions st ++ [ {| guild_id := m_guild member; user_id := m_id member;
                        join_time := now; leave_time := None;
                        channel_counts := None |} ] ∧
  entry (m_guild member) (m_id member) (message_counters st') = Some ∅ ∧
  (∀ g' u', (g', u') ≠ (m_guild member, m_id member) →
            entry g' u' (message_counters st') = entry g' u' (message_counters st)).
Proof.
  rewrite on_member_join_eq. simpl. repeat split.
  - apply entry_insert_eq.
  - intros g' u' Hne. by apply entry_insert_ne.
Qed.

Lemma on_member_join_opens_session_witness :
  sessions (res_state (on_member_join alice "T2" two_open)) =
    sessions two_open ++ [ {| guild_id := 1; user_id := 2; join_time := "T2";
                              leave_time := None; channel_counts := None |} ] ∧
  entry 1 2 (message_counters (res_state (on_member_join alice "T2" two_open))) = Some ∅ ∧
  entry 1 9 (message_counters (res_state (on_member_join alice "T2" two_open))) =
    entry 1 9 (message_counters two_open).
Proof.
  destruct (on_member_join_opens_session alice "T2" two_open) as (_ & Hs & He & Hf).
  split; [exact Hs|]. split; [exact He|]. apply (Hf 1%Z 9%Z). discriminate.
Defined.

(** X6: [on_member_remove] raises nothing, drops the tally of the pair from
    the counter and keeps the table at its length; for every other (guild,
    user) pair the tally and the number of open sessions stay as they were,
    and the pair itself has one open session fewer (none fewer when it had
    none). *)
Theorem on_member_remove_touches_one_pair (member : Member) (now : string) (st : State) :
  let st' := res_state (on_member_remove member now st) in
  raised (on_member_remove member now st) = None ∧
  length (sessions st') = length (sessions st) ∧
  entry (m_guild member) (m_id member) (message_counters st') = None ∧
  open_count (m_guild member) (m_id member) (sessions st') =
    pred (open_count (m_guild member) (m_id member) (sessions st)) ∧
  (∀ g' u', (g', u') ≠ (m_guild member, m_id member) →
            entry g' u' (message_counters st') = entry g' u' (message_counters st) ∧
            open_count g' u' (sessions st') = open_count g' u' (sessions st)).
Proof.
  rewrite on_member_remove_eq. simpl.
  split; [done|]. split; [|split; [|split]].
  - match goal with |- context [update_first ?p ?fs ?t] =>
      destruct (update_first_cases p fs t) as [[-> _]|(j & r0 & _ & _ & ->)] end;
      [done|apply length_insert].
  - apply entry_delete.
  - rewrite open_count_close. by rewrite decide_True.
  - intros g' u' Hne. split; [by apply entry_delete_ne|].
    rewrite open_count_close. rewrite decide_False; [done|].
    intros [Hg Hu]. apply Hne. by rewrite Hg, Hu.
Qed.

Lemma on_member_remove_touches_one_pair_witness :
  open_count 1 2 (sessions (res_state (on_member_remove alice "T2" two_open))) =
    pred (open_count 1 2 (sessions two_open)) ∧
  entry 1 2 (message_counters (res_state (on_member_remove alice "T2" two_open))) = None ∧
  open_count 1 9 (sessions (res_state (on_member_remove alice "T2" two_open))) =
    open_count 1 9 (sessions two_open).
Proof.
  destruct (on_member_remove_touches_one_pair alice "T2" two_open)
    as (_ & _ & He & Hc & Hf).
  split; [exact Hc|]. split; [exact He|].
  apply (Hf 1%Z 9%Z). discriminate.
Defined.

(** ** Bootstrap and the counter *)

Lemma counters_ready_members (now : string) (g : Z) (members : list Member) (st : State) :
  message_counters (foldl (λ s' member, ready_member now g member s') st members) =
    foldl reset (message_counters st)
      ((λ member, (g, m_id member)) <$> filter (λ member, m_bot member = false) members).
Proof.
  revert st. induction members as [|m rest IH]; intros st; [done|].
  simpl. rewrite IH, filter_cons. unfold ready_member at 1.
  destruct (m_bot m); done.
Qed.

Lemma counters_on_ready (now : string) (guilds : list Guild) (st : State) :
  message_counters (dispatch st (Ready now guilds)) =
    foldl reset (message_counters st) (present_pairs guilds).
Proof.
  unfold dispatch. simpl. rewrite on_ready_eq. simpl.
  revert st. induction guilds as [|guild rest IH]; intros st; [done|].
  simpl. rewrite IH, counters_ready_members.
  unfold present_pairs. simpl. by rewrite foldl_app.
Qed.

Lemma entry_reset_all (ps : list (Z * Z)) mc (g u : Z) :
  entry g u (foldl reset mc ps) =
    if decide ((g, u) ∈ ps) then Some ∅ else entry g u mc.
Proof.
  revert mc. induction ps as [|[g0 u0] rest IH]; intros mc.
  - destruct (decide ((g, u) ∈ [])) as [Hin|]; [|done].
    by apply not_elem_of_nil in Hin.
  - simpl. rewrite IH. unfold reset. simpl.
    destruct (decide ((g, u) ∈ rest)) as [Hin|Hnin];
      destruct (decide ((g, u) ∈ (g0, u0) :: rest)) as [Hin'|Hnin']; try done.
    + destruct Hnin'. by right.
    + apply elem_of_cons in Hin' as [Heq|?]; [|done].
      injection Heq as -> ->. apply entry_insert_eq.
    + apply entry_insert_ne. intros Heq. destruct Hnin'. rewrite Heq. left.
Qed.

(** X7: after [on_ready], every non-bot member of the guilds gone through
    has an empty tally, whatever was counted before, and at least one open
    session: one is inserted when the pair had none, and none otherwise. *)
Theorem bootstrap_resets_members
    (now : string) (guilds : list Guild) (gd : Guild) (member : Member) (st : State) :
  gd ∈ guilds → member ∈ g_members gd → m_bot member = false →
  let st' := dispatch st (Ready now guilds) in
  entry (g_id gd) (m_id member) (message_counters st') = Some ∅ ∧
  open_count (g_id gd) (m_id member) (sessions st') =
    Nat.max 1 (open_count (g_id gd) (m_id member) (sessions st)).
Proof.
  intros Hg Hm Hb.
  assert (Hin := elem_of_present_pairs guilds gd member Hg Hm Hb). simpl. split.
  - rewrite counters_on_ready, entry_reset_all. by rewrite decide_True.
  - rewrite sessions_on_ready, open_count_attach_all. by rewrite decide_True.
Qed.

Lemma bootstrap_resets_members_witness :
  entry 1 2 (message_counters
               (dispatch (run [MemberJoin alice "T0"; MessageCreate (says 1001)] init)
                         (Ready "T1" [lobby]))) = Some ∅ ∧
  open_count 1 2
    (sessions (dispatch (run [MemberJoin alice "T0"; MessageCreate (says 1001)] init)
                        (Ready "T1" [lobby]))) =
    Nat.max 1 (open_count 1 2
                 (sessions (run [MemberJoin alice "T0"; MessageCreate (says 1001)] init))).
Proof.
  apply (bootstrap_resets_members "T1" [lobby] lobby alice
           (run [MemberJoin alice "T0"; MessageCreate (says 1001)] init)).
  - left.
  - left.
  - reflexivity.
Defined.

(** X8: [on_ready] raises nothing and leaves alone every (guild, user) pair
    that is not a non-bot member of a guild it goes through (bots, users
    that are not members, other guilds): the pair's tally and its number of
    open sessions are unchanged; and the rows of the table stay in place at
    the front of the new table. *)
Theorem bootstrap_leaves_others (now : string) (guilds : list Guild) (g u : Z) (st : State) :
  (g, u) ∉ present_pairs guilds →
  let st' := dispatch st (Ready now guilds) in
  raised (on_ready now guilds st) = None ∧
  entry g u (message_counters st') = entry g u (message_counters st) ∧
  open_count g u (sessions st') = open_count g u (sessions st) ∧
  sessions st `prefix_of` sessions st'.
Proof.
  intros Hnin. simpl. split; [by rewrite on_ready_eq|]. split; [|split].
  - rewrite counters_on_ready, entry_reset_all. by rewrite decide_False.
  - rewrite sessions_on_ready, open_count_attach_all. by rewrite decide_False.
  - rewrite sessions_on_ready. apply attach_all_prefix.
Qed.

Lemma bootstrap_leaves_others_witness :
  entry 1 9 (message_counters (dispatch init (Ready "T0" [lobby]))) =
    entry 1 9 (message_counters init) ∧
  open_count 1 9 (sessions (dispatch init (Ready "T0" [lobby]))) =
    open_count 1 9 (sessions init).
Proof.
  destruct (bootstrap_leaves_others "T0" [lobby] 1 9 init) as (_ & He & Hc & _).
  - apply (bool_decide_unpack _). vm_compute. exact I.
  - split; [exact He|exact Hc].
Defined.

(** ** Reports *)

Lemma elem_of_attach (now : string) (t : list Row) (p : Z * Z) (r : Row) :
  r ∈ attach now t p → r ∈ t ∨ channel_counts r = None.
Proof.
  unfold attach. destruct (select _ t); [|by left].
  unfold insert. intros Hin. apply elem_of_app in Hin as [?|Hin]; [by left|].
  apply list_elem_of_singleton in Hin as ->. by right.
Qed.

Lemma numeric_keys_attach_all (now : string) (ps : list (Z * Z)) (t : list Row) :
  numeric_keys t → numeric_keys (foldl (attach now) t ps).
Proof.
  revert t. induction ps as [|p rest IH]; intros t Hk; [done|].
  simpl. apply IH. intros r cc k Hr Hcc Hs.
  apply elem_of_attach in Hr as [Hr|Hnone]; [by eapply Hk|congruence].
Qed.

Lemma numeric_keys_dispatch (ev : Event) (st : State) :
  numeric_keys (sessions st) → numeric_keys (sessions (dispatch st ev)).
Proof.
  intros Hk. destruct ev as [now guilds|member now|message|member now].
  - rewrite sessions_on_ready. by apply numeric_keys_attach_all.
  - unfold dispatch. simpl. rewrite on_member_join_eq. simpl.
    intros r cc k Hr Hcc Hs. unfold insert in Hr.
    apply elem_of_app in Hr as [Hr|Hr]; [by eapply Hk|].
    apply list_elem_of_singleton in Hr as ->. done.
  - by rewrite sessions_on_message.
  - unfold dispatch. simpl. rewrite on_member_remove_eq. simpl.
    match goal with |- context [update_first ?p ?fs ?t] =>
      destruct (update_first_cases p fs t) as [[-> _]|(j & r0 & Hj & _ & ->)] end;
      [done|].
    intros r cc k Hr Hcc Hs. apply list_elem_of_lookup in Hr as [i Hi].
    destruct (decide (i = j)) as [->|Hne].
    + rewrite list_lookup_insert_eq in Hi by (by eapply lookup_lt_Some).
      injection Hi as <-. simpl in Hcc. injection Hcc as <-.
      destruct Hs as [n Hn]. apply lookup_kmap_Some in Hn as (c & -> & _); [|apply _].
      by exists c.
    + rewrite list_lookup_insert_ne in Hi by done.
      eapply Hk; [by eapply list_elem_of_lookup_2|done..].
Qed.

Lemma numeric_keys_run (evs : list Event) (st : State) :
  numeric_keys (sessions st) → numeric_keys (sessions (run evs st)).
Proof.
  revert st. induction evs as [|ev rest IH]; intros st Hk; [done|].
  rewrite run_cons. by apply IH, numeric_keys_dispatch.
Qed.

Lemma map_m_count_line_numeric (g : Guild) (items : list (string * Z)) (st : State) :
  (∀ item, item ∈ items → ∃ z, item.1 = Py.str z) →
  ∃ lines, map_m (count_line g) items st = Ret lines st [].
Proof.
  induction items as [|[cid cnt] rest IH]; intros Hk; [by eexists|].
  destruct (Hk (cid, cnt)) as [z Hz]; [left|]. simpl in Hz.
  destruct IH as [lines Hlines]; [intros item Hin; apply Hk; by right|].
  simpl. unfold bind. rewrite Hz, int_str. unfold ret at 1.
  rewrite Hlines. simpl. by eexists.
Qed.

Lemma bind_pure {A B} (m : M A) (k : A → M B) (a : A) (st : State) :
  m st = Ret a st [] → bind m k st = k a st.
Proof. intros Hm. unfold bind. rewrite Hm. by destruct (k a st). Qed.

Lemma stats_unfold (ctx : Context) (member : option Member) (st : State) :
  let target := default (ctx_author ctx) member in
  stats ctx member st =
    match (limit 1 (order_desc
             (select [EqGuild (g_id (ctx_guild ctx)); EqUser (m_id target)]
                (sessions st)))).*2 with
    | [] => Ret tt st ["No sessions found for " +:+ m_mention target +:+ "."]
    | ses :: _ =>
        let head_lines :=
          [ "**Session for " +:+ m_mention target +:+ ":**";
            "• Joined: `" +:+ join_time ses +:+ "`";
            "• Left:   `" +:+ Py.or_else (leave_time ses) "still here" +:+ "`";
            "";
            "**Message counts:**" ] in
        match map_to_list <$> channel_counts ses with
        | Some (item :: items) =>
            match map_m (count_line (ctx_guild ctx)) (item :: items) st with
            | Ret more st1 out1 =>
                Ret tt st1 (out1 ++ [Py.join nl (head_lines ++ more)])
            | Exn e st1 out1 => Exn e st1 out1
            end
        | _ => Ret tt st [Py.join nl (head_lines ++ ["• No messages recorded."])]
        end
    end.
Proof.
  intros target. unfold stats. fold target.
  rewrite (bind_pure _ _ _ st eq_refl).
  destruct ((limit 1 (order_desc (select _ (sessions st)))).*2) as [|ses rest];
    [reflexivity|].
  cbv zeta.
  destruct (map_to_list <$> channel_counts ses) as [[|item items]|];
    reflexivity.
Qed.

Lemma count_line_cases (g : Guild) (item : string * Z) (st : State) :
  (∃ line, count_line g item st = Ret line st []) ∨
  count_line g item st = Exn Py.ValueError st [].
Proof.
  destruct item as [cid cnt]. unfold count_line.
  destruct (Py.int cid); [left; by eexists|by right].
Qed.

Lemma map_m_count_line_silent (g : Guild) (items : list (string * Z)) (st : State) :
  res_sent (map_m (count_line g) items st) = [] ∧
  res_state (map_m (count_line g) items st) = st.
Proof.
  induction items as [|item rest [IHs IHt]]; [done|].
  simpl. unfold bind.
  destruct (count_line_cases g item st) as [[line ->]| ->]; [|done].
  destruct (map_m (count_line g) rest st); simpl in *; subst; split; reflexivity.
Qed.

(** The latest session of a pair, as [stats] selects it. *)
Lemma latest_session (g u : Z) (t : list Row) :
  match (limit 1 (order_desc (select [EqGuild g; EqUser u] t))).*2 with
  | [] => ∀ r, r ∈ t → ¬ (guild_id r = g ∧ user_id r = u)
  | ses :: _ =>
      ses ∈ t ∧ guild_id ses = g ∧ user_id ses = u ∧
      ∀ r, r ∈ t → guild_id r = g → user_id r = u →
           String.leb (join_time r) (join_time ses)
  end.
Proof.
  unfold limit.
  destruct (order_desc (select [EqGuild g; EqUser u] t)) as [|[i ses] rest] eqn:E; simpl.
  - intros r Hr [Hg Hu]. apply list_elem_of_lookup in Hr as [j Hj].
    assert (Hin : (j, r) ∈ select [EqGuild g; EqUser u] t).
    { apply elem_of_select. split; [done|]. by repeat constructor. }
    unfold order_desc in E.
    rewrite <- (merge_sort_Permutation later_first), E in Hin.
    by apply not_elem_of_nil in Hin.
  - apply order_desc_head in E as [Hin Hmax].
    apply elem_of_select in Hin as [Hl Hf].
    rewrite !Forall_cons in Hf. simpl in Hf. destruct Hf as (Hg & Hu & _).
    split; [by eapply list_elem_of_lookup_2|]. split; [done|]. split; [done|].
    intros r Hr Hrg Hru. apply list_elem_of_lookup in Hr as [j Hj].
    apply (Hmax (j, r)). apply elem_of_select. split; [done|].
    by repeat constructor.
Qed.

(** X9: on a table that the program itself has written (any events from
    the fresh state), [stats] never raises: the channel keys written by
    [on_member_remove] are read back by [int], and exactly one text is
    sent, with the state unchanged. *)
Theorem stats_answers_on_own_tables
    (evs : list Event) (ctx : Context) (member : option Member) :
  ∃ text, stats ctx member (run evs init) = Ret tt (run evs init) [text].
Proof.
  assert (Hk : numeric_keys (sessions (run evs init))).
  { apply numeric_keys_run. intros r cc k Hr. by apply not_elem_of_nil in Hr. }
  set (st := run evs init) in *. clearbody st.
  rewrite stats_unfold.
  pose proof (latest_session (g_id (ctx_guild ctx))
                (m_id (default (ctx_author ctx) member)) (sessions st)) as Hl.
  destruct ((limit 1 (order_desc (select _ (sessions st)))).*2) as [|ses rest];
    [by eexists|].
  destruct Hl as (Hin & _). cbv zeta.
  destruct (channel_counts ses) as [cc|] eqn:Ecc; [|by eexists].
  cbn [fmap option_fmap option_map].
  destruct (map_to_list cc) as [|item items] eqn:Eitems; [by eexists|].
  destruct (map_m_count_line_numeric (ctx_guild ctx) (item :: items) st)
    as [lines ->]; [|by eexists].
  intros [k n] Hitem. rewrite <- Eitems in Hitem.
  apply elem_of_map_to_list in Hitem. simpl. eapply Hk; [done..|by eexists].
Qed.

(** X10: when the user has session rows in the guild, [stats] reports the
    latest of them: whenever it returns, it has sent one text whose first
    lines give the mention, the join time of a row of the pair that no other
    row of the pair is later than, and its leave time, or "still here" when
    that is null or empty; the only line after the heading is "No messages
    recorded." when the row has no counts. *)
Theorem stats_reports_latest_session
    (ctx : Context) (member : option Member) (st : State) :
  let target := default (ctx_author ctx) member in
  (∃ r, r ∈ sessions st ∧ guild_id r = g_id (ctx_guild ctx) ∧
        user_id r = m_id target) →
  raised (stats ctx member st) = None →
  ∃ ses count_lines,
    ses ∈ sessions st ∧
    guild_id ses = g_id (ctx_guild ctx) ∧ user_id ses = m_id target ∧
    (∀ r, r ∈ sessions st → guild_id r = g_id (ctx_guild ctx) →
          user_id r = m_id target →
          String.leb (join_time r) (join_time ses)) ∧
    res_sent (stats ctx member st) =
      [ Py.join nl
          ([ "**Session for " +:+ m_mention target +:+ ":**";
             "• Joined: `" +:+ join_time ses +:+ "`";
             "• Left:   `" +:+ Py.or_else (leave_time ses) "still here" +:+ "`";
             "";
             "**Message counts:**" ] ++ count_lines) ] ∧
    (channel_counts ses = None ∨ channel_counts ses = Some ∅ →
     count_lines = ["• No messages recorded."]).
Proof.
  intros target (r0 & Hr0 & Hg0 & Hu0). rewrite stats_unfold. fold target.
  pose proof (latest_session (g_id (ctx_guild ctx)) (m_id target) (sessions st)) as Hl.
  destruct ((limit 1 (order_desc (select _ (sessions st)))).*2) as [|ses rest].
  { destruct (Hl r0 Hr0). done. }
  destruct Hl as (Hin & Hg & Hu & Hmax). cbv zeta. intros Hret.
  destruct (channel_counts ses) as [cc|] eqn:Ecc;
    cbn [fmap option_fmap option_map] in Hret |- *.
  - destruct (map_to_list cc) as [|item items] eqn:Eitems.
    + exists ses, ["• No messages recorded."]. split_and!; try done.
    + destruct (map_m_count_line_silent (ctx_guild ctx) (item :: items) st)
        as [Hsent _].
      destruct (map_m (count_line (ctx_guild ctx)) (item :: items) st)
        as [lines st1 out1|e st1 out1]; [|done].
      simpl in Hsent. subst out1. exists ses, lines. split_and!; try done.
      intros [Hnone|Hempty]; [congruence|].
      rewrite Hempty in Ecc. injection Ecc as <-.
      by rewrite map_to_list_empty in Eitems.
  - exists ses, ["• No messages recorded."]. split_and!; done.
Qed.

Lemma stats_reports_latest_session_witness :
  ∃ ses count_lines,
    ses ∈ sessions two_open ∧
    res_sent (stats moderator_ctx None two_open) =
      [ Py.join nl
          ([ "**Session for " +:+ "<@2>" +:+ ":**";
             "• Joined: `" +:+ join_time ses +:+ "`";
             "• Left:   `" +:+ Py.or_else (leave_time ses) "still here" +:+ "`";
             "";
             "**Message counts:**" ] ++ count_lines) ].
Proof.
  destruct (stats_reports_latest_session moderator_ctx None two_open)
    as (ses & count_lines & Hin & _ & _ & _ & Hs & _).
  - eexists. split; [left|]. split; reflexivity.
  - reflexivity.
  - exists ses, count_lines. split; [exact Hin|exact Hs].
Defined.

Example stats_shows_the_later_open_session :
  res_sent (stats moderator_ctx None two_open) =
    [ Py.join nl [ "**Session for <@2>:**"; "• Joined: `T1`";
                   "• Left:   `still here`"; ""; "**Message counts:**";
                   "• No messages recorded." ] ].
Proof. vm_compute. reflexivity. Qed.

(** ** Messages and commands *)

Lemma bind_step {A B} (m : M A) (k : A → M B) (a : A) (st st1 : State) :
  m st = Ret a st1 [] → bind m k st = k a st1.
Proof. intros Hm. unfold bind. rewrite Hm. by destruct (k a st1). Qed.

Lemma counters_incr_returns (g u c : Z) (st : State) :
  ∃ st1, counters_incr g u c st = Ret tt st1 [].
Proof.
  unfold counters_incr. rewrite (bind_step _ _ _ _ _ (counters_guild_eq g st)).
  by eexists.
Qed.

(** A guild message of a non-bot author ends in [process_commands]. *)
Lemma on_message_ends_in_commands (message : Message) (gd : Guild) (st : State) :
  m_bot (author message) = false →
  guild message = Some gd →
  ∃ st1, on_message message st = process_commands message gd st1.
Proof.
  intros Hbot Hg. unfold on_message. rewrite Hbot, Hg.
  rewrite (bind_step _ _ _ _ _ (counters_guild_eq (g_id gd) st)).
  case_decide.
  - match goal with |- context [counters_incr ?g ?u ?c] =>
      destruct (counters_incr_returns g u c
                  {| sessions := sessions st;
                     message_counters := touched (g_id gd) (message_counters st) |})
        as [st1 Hst1] end.
    rewrite (bind_step _ _ _ _ _ Hst1). by eexists.
  - rewrite (bind_step _ _ tt _ _ eq_refl). by eexists.
Qed.

(** X11: a message whose author lacks the manage-guild permission gets no
    answer from the commands of the program: whether it invokes [stats],
    [active] or nothing, and whether it is counted, dropped or makes the
    handler raise, [on_message] sends no text. *)
Theorem on_message_silent_without_permission (message : Message) (st : State) :
  m_manage_guild (author message) = false →
  res_sent (on_message message st) = [].
Proof.
  intros Hperm.
  destruct (m_bot (author message)) eqn:Hbot.
  { unfold on_message. by rewrite Hbot. }
  destruct (guild message) as [gd|] eqn:Hg.
  - destruct (on_message_ends_in_commands message gd st Hbot Hg) as [st1 ->].
    unfold process_commands. destruct (invocation message); [|done].
    unfold catch, invoke. simpl. by rewrite Hperm.
  - unfold on_message. by rewrite Hbot, Hg.
Qed.

Lemma on_message_silent_without_permission_witness :
  m_bot (author guest_asks_active) = false ∧
  res_sent (on_message guest_asks_active two_open) = [].
Proof.
  split; [reflexivity|].
  apply (on_message_silent_without_permission guest_asks_active two_open).
  reflexivity.
Defined.

(** The same message from a moderator is answered. *)
Example on_message_answers_a_moderator :
  res_sent (on_message moderator_asks_active two_open) =
    ["**Active sessions:** <@2>"].
Proof. vm_compute. reflexivity. Qed.

(** X12: no message changes the session table: after any messages (from
    bots or not, in a guild or direct, with or without a command, counted or
    dropped) the table is the one before. *)
Theorem messages_never_change_sessions (msgs : list Message) (st : State) :
  sessions (run (MessageCreate <$> msgs) st) = sessions st.
Proof.
  revert st. induction msgs as [|m rest IH]; intros st; [done|].
  rewrite fmap_cons, run_cons, IH. apply sessions_on_message.
Qed.

(** X13: a message that arrives after the leave is dropped: once
    [on_member_remove] has run for a member, a message of that user in that
    guild raises nothing and leaves the whole state, table and counter,
    unchanged. *)
Theorem message_after_leave_is_dropped
    (member : Member) (now : string) (message : Message) (gd : Guild) (st : State) :
  m_bot (author message) = false →
  guild message = Some gd →
  g_id gd = m_guild member →
  m_id (author message) = m_id member →
  let st1 := res_state (on_member_remove member now st) in
  raised (on_message message st1) = None ∧
  res_state (on_message message st1) = st1.
Proof.
  intros Hbot Hg Hgd Hu. rewrite on_member_remove_eq. simpl.
  match goal with |- context [on_message message ?s] =>
    destruct (on_message_guild message gd s Hbot Hg) as [out ->] end.
  simpl. rewrite Hgd, Hu, entry_delete. split; [done|].
  rewrite touched_present; [done|]. rewrite lookup_insert_eq. by eexists.
Qed.

Lemma message_after_leave_is_dropped_witness :
  res_state (on_message (says 1001)
               (res_state (on_member_remove alice "T1"
                             (run [MemberJoin alice "T0"] init)))) =
    res_state (on_member_remove alice "T1" (run [MemberJoin alice "T0"] init)).
Proof.
  apply (message_after_leave_is_dropped alice "T1" (says 1001) lobby
           (run [MemberJoin alice "T0"] init)); reflexivity.
Defined.

(** ** Sessions in sequence *)

(** X14: tallies do not leak from one session into the next: two sessions
    of the same member, one after the other, add two closed rows, and the
    counts of each are the messages of that session only. *)
Theorem sessions_do_not_share_counts
    (member : Member) (t0 t1 t2 t3 : string) (msgs1 msgs2 : list Message) (st : State) :
  open_count (m_guild member) (m_id member) (sessions st) = 0 →
  Forall (sent_by (m_guild member) (m_id member)) msgs1 →
  Forall (sent_by (m_guild member) (m_id member)) msgs2 →
  ∃ cc1 cc2 : gmap string Z,
    sessions (run (session_events member t0 t1 msgs1 ++
                   session_events member t2 t3 msgs2) st) =
      sessions st ++ [closed_row (m_guild member) (m_id member) t0 t1 cc1;
                      closed_row (m_guild member) (m_id member) t2 t3 cc2] ∧
    (∀ c, cc1 !! Py.str c =
            if decide (messages_in c msgs1 = 0) then None
            else Some (Z.of_nat (messages_in c msgs1))) ∧
    (∀ c, cc2 !! Py.str c =
            if decide (messages_in c msgs2 = 0) then None
            else Some (Z.of_nat (messages_in c msgs2))).
Proof.
  intros H0 Hall1 Hall2. rewrite run_app.
  destruct (run_session member t0 t1 msgs1 st H0 Hall1) as [Hs1 _].
  set (st1 := run (session_events member t0 t1 msgs1) st) in *.
  assert (H1 : open_count (m_guild member) (m_id member) (sessions st1) = 0).
  { rewrite Hs1, open_count_snoc, H0. rewrite decide_False; [done|].
    unfold is_open, closed_row. simpl. intros (_ & _ & ?). done. }
  destruct (run_session member t2 t3 msgs2 st1 H1 Hall2) as [Hs2 _].
  eexists _, _. split; [|split].
  - rewrite Hs2, Hs1, <- app_assoc. done.
  - intros c. rewrite lookup_kmap by apply _. rewrite tally_after.
    rewrite lookup_empty. simpl. by case_decide.
  - intros c. rewrite lookup_kmap by apply _. rewrite tally_after.
    rewrite lookup_empty. simpl. by case_decide.
Qed.

Lemma sessions_do_not_share_counts_witness :
  ∃ cc1 cc2 : gmap string Z,
    sessions (run (session_events alice "T0" "T1" [says 1001; says 1001] ++
                   session_events alice "T2" "T3" [says 1002]) init) =
      [closed_row 1 2 "T0" "T1" cc1; closed_row 1 2 "T2" "T3" cc2] ∧
    cc1 !! "1001" = Some 2%Z ∧ cc2 !! "1001" = None ∧ cc2 !! "1002" = Some 1%Z.
Proof.
  destruct (sessions_do_not_share_counts alice "T0" "T1" "T2" "T3"
              [says 1001; says 1001] [says 1002] init)
    as (cc1 & cc2 & Hs & Hc1 & Hc2).
  - reflexivity.
  - repeat constructor.
  - repeat constructor.
  - exists cc1, cc2. split; [exact Hs|]. split; [exact (Hc1 1001%Z)|].
    split; [exact (Hc2 1001%Z)|exact (Hc2 1002%Z)].
Defined.

(** X15: counts do not survive a bootstrap: when [on_ready] goes through a
    non-bot member and the member leaves right after, the session that is
    closed (an open session of the pair that no other is later than) records
    the empty counts, whatever the counter held before the bootstrap. *)
Theorem bootstrap_discards_counts
    (now t1 : string) (guilds : list Guild) (gd : Guild) (member : Member)
    (st : State) :
  gd ∈ guilds → member ∈ g_members gd → m_bot member = false →
  m_guild member = g_id gd →
  let st1 := run [Ready now guilds] st in
  ∃ i r,
    sessions st1 !! i = Some r ∧
    is_open (m_guild member) (m_id member) r ∧
    (∀ r', r' ∈ sessions st1 → is_open (m_guild member) (m_id member) r' →
           String.leb (join_time r') (join_time r)) ∧
    sessions (run [Ready now guilds; MemberRemove member t1] st) =
      <[i := closed_row (m_guild member) (m_id member) (join_time r) t1 ∅]>
        (sessions st1).
Proof.
  intros Hg Hm Hb Hgd st1.
  assert (Hin := elem_of_present_pairs guilds gd member Hg Hm Hb).
  rewrite <- Hgd in Hin.
  assert (He : entry (m_guild member) (m_id member) (message_counters st1) = Some ∅).
  { unfold st1. rewrite run_cons. simpl.
    rewrite counters_on_ready, entry_reset_all. by rewrite decide_True. }
  assert (Hc : open_count (m_guild member) (m_id member) (sessions st1) ≠ 0).
  { unfold st1. rewrite run_cons. simpl.
    rewrite sessions_on_ready, open_count_attach_all.
    rewrite decide_True by done. lia. }
  change (run [Ready now guilds; MemberRemove member t1] st)
    with (dispatch st1 (MemberRemove member t1)).
  unfold dispatch at 1. simpl. rewrite on_member_remove_eq. simpl.
  rewrite He. simpl. rewrite kmap_empty.
  match goal with |- context [update_first ?p ?fs ?t] =>
    destruct (update_first_latest p fs t) as (i & r & Hl & Hf & Hmax & ->) end.
  { intros Hnil. by apply select_open_nil_iff in Hnil. }
  apply holds_open_session_of in Hf. exists i, r. split_and!; try done.
  - intros r' Hr' Ho. apply Hmax; [done|]. by apply holds_open_session_of.
  - destruct Hf as (Hg' & Hu' & _). unfold close, closed_row. by rewrite Hg', Hu'.
Qed.

Example counts_before_a_bootstrap_are_lost :
  sessions (run [MemberJoin alice "T0"; MessageCreate (says 1001);
                 MessageCreate (says 1001); Ready "T1" [lobby];
                 MemberRemove alice "T2"] init) =
    [closed_row 1 2 "T0" "T2" ∅].
Proof. vm_compute. reflexivity. Qed.

Lemma bootstrap_discards_counts_witness :
  ∃ i r,
    sessions (run [Ready "T1" [lobby]]
                (run [MemberJoin alice "T0"; MessageCreate (says 1001)] init)) !! i
      = Some r ∧
    sessions (run [Ready "T1" [lobby]; MemberRemove alice "T2"]
                (run [MemberJoin alice "T0"; MessageCreate (says 1001)] init)) =
      <[i := closed_row 1 2 (join_time r) "T2" ∅]>
        (sessions (run [Ready "T1" [lobby]]
                     (run [MemberJoin alice "T0"; MessageCreate (says 1001)] init))).
Proof.
  destruct (bootstrap_discards_counts "T1" "T2" [lobby] lobby alice
              (run [MemberJoin alice "T0"; MessageCreate (says 1001)] init))
    as (i & r & Hl & _ & _ & Hs).
  - left.
  - left.
  - reflexivity.
  - reflexivity.
  - exists i, r. split; [exact Hl|exact Hs].
Defined.
